(** * Pub/sub message administration services of zato-server

    A shallow embedding of
    [zato/server/service/internal/pubsub/message.py] (the admin services
    that get, check, delete and update GD and non-GD pub/sub messages) and
    of the client protocol exercised by [test/zato/pubsub/test_pubapi.py].

    Python code becomes state-passing code in an exception monad: a
    service's [handle] is a function from the server state to a result
    (the response payload or the exception raised) and the new state.
    Numbers that Python holds as floats or decimals (timestamps in
    seconds) are idealised as rationals ([Qc]). *)

From Stdlib Require Import ZArith QArith Qcanon String List.
From stdpp Require Import base option numbers list sorting strings pretty gmap fin_maps.

Set Default Proof Using "Type".
Local Open Scope Z_scope.

(** ** Exceptions and results *)

(** The exceptions the modelled code can raise.  [NotFound] and
    [BadRequest] are those of [zato.server.connection.http_soap]
    ([NotFound(cid, msg)]); the others are Python's own or SQLAlchemy's. *)
Inductive exn : Type :=
  | NotFound (cid msg : string)
  | BadRequest (cid msg : string)
  | TypeError (msg : string)
  | UnboundLocalError (name : string)
  | NameError (name : string)
  | KeyError (key : string)
  | AttributeError (msg : string)
  | NotImplementedError (msg : string)
  | NoResultFound
  | MultipleResultsFound
  | SystemError (msg : string)
  | IndexError (msg : string)
  | AssertionError (msg : string)
  | Exception (msg : string)
  | CommunicationFailure (msg : string).

Inductive result (A : Type) : Type :=
  | Ok (a : A)
  | Raise (e : exn).
Arguments Ok {A} a.
Arguments Raise {A} e.

Definition is_NotFound (e : exn) : bool :=
  match e with NotFound _ _ => true | _ => false end.

Definition raises_NotFound {A} (r : result A) : bool :=
  match r with Raise e => is_NotFound e | Ok _ => false end.

(** ** The monad of handlers: state and exceptions *)

Definition M (S A : Type) : Type := S → result A * S.

Definition ret {S A} (a : A) : M S A := λ s, (Ok a, s).

Definition bind {S A B} (m : M S A) (k : A → M S B) : M S B :=
  λ s, match m s with
       | (Ok a, s') => k a s'
       | (Raise e, s') => (Raise e, s')
       end.

Definition raise {S A} (e : exn) : M S A := λ s, (Raise e, s).
Definition gets {S A} (f : S → A) : M S A := λ s, (Ok (f s), s).
Definition modify {S} (f : S → S) : M S unit := λ s, (Ok tt, f s).
Definition lift_result {S A} (r : result A) : M S A := λ s, (r, s).

(** [try: body finally: fin].  [fin] always runs; the outcome is the
    body's unless [fin] raises. *)
Definition try_finally {S A} (body : M S A) (fin : M S unit) : M S A :=
  λ s, match body s with
       | (r, s') =>
           match fin s' with
           | (Ok _, s'') => (r, s'')
           | (Raise e, s'') => (Raise e, s'')
           end
       end.

Declare Scope py_scope.
Delimit Scope py_scope with py.
Notation "x <- m ;; k" := (bind m (λ x, k))
  (at level 100, m at next level, right associativity) : py_scope.
Notation "m ;;; k" := (bind m (λ _, k))
  (at level 100, right associativity) : py_scope.
Local Open Scope py_scope.

(** ** Python truth values of the numbers the code tests *)

(** [if x:] on an optional integer: [None] and [0] are false. *)
Definition truthy_int (x : option Z) : bool :=
  match x with
  | None => false
  | Some z => negb (z =? 0)
  end.

(** [if x:] on an optional number: [None] and [0] are false. *)
Definition truthy_num (x : option Qc) : bool :=
  match x with
  | None => false
  | Some q => negb (bool_decide (q = 0%Qc))
  end.

(** ** The SQL database (ODB) *)

(** Rows of [zato.common.odb.model], with the columns the services use
    and [id], the primary key by which the ORM tells rows apart.
    The three timestamp columns of a message are parameters of the row
    type: the stored row holds numbers (seconds since the epoch), the row
    a get service answers with holds what the service wrote over them. *)
Module PubSubMessage.
Record t (T O : Type) : Type := Build {
  id : Z;
  cluster_id : Z;
  pub_msg_id : string;
  topic_id : Z;
  pub_correl_id : option string;
  in_reply_to : option string;
  mime_type : string;
  priority : Z;
  expiration : option Z;
  size : Z;
  data : string;
  data_prefix : string;
  data_prefix_short : string;
  pub_time : T;
  ext_pub_time : O;
  expiration_time : O;
}.
Arguments Build {T O}.
Arguments id {T O}.
Arguments cluster_id {T O}.
Arguments pub_msg_id {T O}.
Arguments topic_id {T O}.
Arguments pub_correl_id {T O}.
Arguments in_reply_to {T O}.
Arguments mime_type {T O}.
Arguments priority {T O}.
Arguments expiration {T O}.
Arguments size {T O}.
Arguments data {T O}.
Arguments data_prefix {T O}.
Arguments data_prefix_short {T O}.
Arguments pub_time {T O}.
Arguments ext_pub_time {T O}.
Arguments expiration_time {T O}.

(** Assignment of the three timestamp attributes, the others kept. *)
Definition with_times {T O T' O'} (m : t T O)
    (pt : T') (ept et : O') : t T' O' :=
  Build (id m) (cluster_id m) (pub_msg_id m) (topic_id m)
    (pub_correl_id m) (in_reply_to m) (mime_type m) (priority m)
    (expiration m) (size m) (data m) (data_prefix m)
    (data_prefix_short m) pt ept et.
End PubSubMessage.

(** A stored message row. *)
Abbreviation Message := (PubSubMessage.t Qc (option Qc)).
(** A message row as a get service returns it. *)
Abbreviation MessageView := (PubSubMessage.t string string).

Module PubSubTopic.
Record t : Type := Build {
  id : Z;
  cluster_id : Z;
  name : string;
}.
End PubSubTopic.

(** A subscriber's queue entry; it references a message by its ID. *)
Module PubSubEndpointEnqueuedMessage.
Record t : Type := Build {
  pub_msg_id : string;
  sub_key : string;
  delivery_count : Z;
  is_in_staging : bool;
}.
End PubSubEndpointEnqueuedMessage.

Record Database : Type := {
  messages : list Message;
  topics : list PubSubTopic.t;
  queue : list PubSubEndpointEnqueuedMessage.t;
}.

(** ** The server a service runs in *)

(** What a handler leaves behind besides the database. *)
Inductive event : Type :=
  | LockAcquired (name : string)
  | LockReleased (name : string)
  | Committed
  | LogInfo (msg : string).

(** A non-GD message is a Python dict; the values a message holds. *)
Inductive pyval : Type :=
  | VNone
  | VBool (b : bool)
  | VInt (z : Z)
  | VFloat (q : Qc)
  | VStr (s : string).

Abbreviation pydict := (gmap string pyval).

Module PubSubEndpoint.
Record t : Type := Build { name : string }.
End PubSubEndpoint.

(** [self.pubsub]: the in-RAM part of pub/sub of one server process.
    Dicts are objects on a heap, and [msg_id_to_msg] (the backlog of
    non-GD messages, [self.pubsub.sync_backlog]) holds references to them,
    so that a dict handed out by the backlog is the stored one. *)
Record PubSub : Type := {
  heap : gmap nat pydict;
  msg_id_to_msg : gmap string nat;
  endpoints : gmap Z PubSubEndpoint.t;
  data_prefix_len : nat;
  data_prefix_short_len : nat;
}.

Record Server : Type := {
  server_cluster_id : Z;          (* self.server.cluster_id *)
  odb : Database;                 (* the committed state of the database *)
  txn : option Database;          (* the open session's view, if any *)
  pubsub : PubSub;                (* self.pubsub *)
  utcnow : Qc;                    (* what utcnow_as_ms() returns *)
  trace : list event;
}.

Definition set_odb (f : Database → Database) (s : Server) : Server :=
  {| server_cluster_id := server_cluster_id s; odb := f (odb s);
     txn := txn s; pubsub := pubsub s; utcnow := utcnow s;
     trace := trace s |}.

Definition set_txn (t : option Database) (s : Server) : Server :=
  {| server_cluster_id := server_cluster_id s; odb := odb s;
     txn := t; pubsub := pubsub s; utcnow := utcnow s;
     trace := trace s |}.

Definition set_pubsub (f : PubSub → PubSub) (s : Server) : Server :=
  {| server_cluster_id := server_cluster_id s; odb := odb s;
     txn := txn s; pubsub := f (pubsub s); utcnow := utcnow s;
     trace := trace s |}.

Definition emit (e : event) (s : Server) : Server :=
  {| server_cluster_id := server_cluster_id s; odb := odb s;
     txn := txn s; pubsub := pubsub s; utcnow := utcnow s;
     trace := trace s ++ [e] |}.

(** ** Sessions, queries, locks and the logger *)

(** [self.odb.session()]: a session starts from the committed state. *)
Definition odb_session : M Server unit :=
  modify (λ s, set_txn (Some (odb s)) s).

(** What the session sees: its own pending changes over the database. *)
Definition session_view (s : Server) : Database :=
  default (odb s) (txn s).

Definition session_close : M Server unit := modify (set_txn None).

(** [session.commit()] makes the session's changes the database's. *)
Definition session_commit : M Server unit :=
  modify (λ s, emit Committed (set_odb (λ _, session_view s) s)).

(** [with closing(self.odb.session()) as session: body] *)
Definition with_closing_session {A} (body : M Server A) : M Server A :=
  odb_session ;;; try_finally body session_close.

(** [query.first()] *)
Definition first {A} (q : Database → list A) : M Server (option A) :=
  gets (λ s, head (q (session_view s))).

(** [query.one()] *)
Definition one {A} (q : Database → list A) : M Server A :=
  rows <- gets (λ s, q (session_view s)) ;;
  match rows with
  | [] => raise NoResultFound
  | [row] => ret row
  | _ :: _ :: _ => raise MultipleResultsFound
  end.

(** [session.query(exists().where(...)).scalar()] *)
Definition exists_scalar {A} (q : Database → list A) : M Server bool :=
  gets (λ s, match q (session_view s) with [] => false | _ :: _ => true end).

(** [session.query(PubSubMessage).filter(cluster_id==c).filter(pub_msg_id==i)] *)
Definition messages_by_id (c : Z) (i : string) (db : Database) : list Message :=
  filter (λ m, PubSubMessage.cluster_id m = c ∧ PubSubMessage.pub_msg_id m = i)
    (messages db).

(** [session.query(PubSubTopic).filter(cluster_id==c).filter(id==t)] *)
Definition topics_by_id (c t : Z) (db : Database) : list PubSubTopic.t :=
  filter (λ x, PubSubTopic.cluster_id x = c ∧ PubSubTopic.id x = t)
    (topics db).

(** Modelled from the spec: the ORM mapping of [zato.common.odb.model] is
    missing, so what [session.delete(ps_msg)] removes follows the spec and
    the docstring of [Delete]: the message row (the ORM finds it by its
    primary key) and, by cascade, every queue entry that references the
    message. *)
Definition delete_cascade (m : Message) (db : Database) : Database :=
  {| messages :=
       filter (λ x, PubSubMessage.id x ≠ PubSubMessage.id m) (messages db);
     topics := topics db;
     queue :=
       filter (λ q, PubSubEndpointEnqueuedMessage.pub_msg_id q
                      ≠ PubSubMessage.pub_msg_id m) (queue db) |}.

Definition session_delete (m : Message) : M Server unit :=
  modify (λ s, set_txn (Some (delete_cascade m (session_view s))) s).

(** [session.add(item)]: the session writes the object's attributes to
    the row with the object's primary key. *)
Definition add_row (m : Message) (db : Database) : Database :=
  {| messages :=
       (λ x, if decide (PubSubMessage.id x = PubSubMessage.id m)
             then m else x) <$> messages db;
     topics := topics db;
     queue := queue db |}.

Definition session_add (m : Message) : M Server unit :=
  modify (λ s, set_txn (Some (add_row m (session_view s))) s).

(** [with self.lock(name): body] *)
Definition with_lock {A} (name : string) (body : M Server A) : M Server A :=
  modify (emit (LockAcquired name)) ;;;
  try_finally body (modify (emit (LockReleased name))).

Definition logger_info (msg : string) : M Server unit :=
  modify (emit (LogInfo msg)).

(** ** GD services *)

(** Modelled from the spec: the query [pubsub_message] of
    [zato.common.odb.query] is missing; the spec keys the GD store by
    [(cluster_id, msg_id)], so the query selects the message rows of
    that cluster with that ID. *)
Definition pubsub_message (c : Z) (i : string) (db : Database) : list Message :=
  messages_by_id c i db.

Module GetFromTopicGD.
Record input : Type := Input {
  msg_id : string;
  cluster_id : Z;
}.

Section handle.
(** [zato.common.util.time_.datetime_from_ms], which is missing:
    milliseconds since the epoch to an ISO-8601 string. *)
Context (datetime_from_ms : Qc → string).

Definition handle (cid : string) (i : input) : M Server MessageView :=
  with_closing_session (
    item <- first (pubsub_message (cluster_id i) (msg_id i)) ;;
    match item with
    | Some item =>
        let pub_time :=
          datetime_from_ms (PubSubMessage.pub_time item * Qc_of_Z 1000) in
        let ext_pub_time :=
          if truthy_num (PubSubMessage.ext_pub_time item)
          then datetime_from_ms
                 (default 0%Qc (PubSubMessage.ext_pub_time item) * Qc_of_Z 1000)
          else "" in
        let expiration_time :=
          if truthy_num (PubSubMessage.expiration_time item)
          then datetime_from_ms
                 (default 0%Qc (PubSubMessage.expiration_time item) * Qc_of_Z 1000)
          else "" in
        ret (PubSubMessage.with_times item pub_time ext_pub_time expiration_time)
    | None =>
        raise (NotFound cid ("No such message `" +:+ msg_id i +:+ "`"))
    end).
End handle.
End GetFromTopicGD.

Module Has.
Record input : Type := Input {
  cluster_id : Z;
  msg_id : string;
}.

Record payload : Type := Payload { found : bool }.

(** The query compares with [self.server.cluster_id]; the [cluster_id]
    of the input is not read. *)
Definition handle (i : input) : M Server payload :=
  with_closing_session (
    c <- gets server_cluster_id ;;
    found <- exists_scalar (messages_by_id c (msg_id i)) ;;
    ret (Payload found)).
End Has.

Module Delete.
Record input : Type := Input {
  cluster_id : Z;
  msg_id : string;
}.

Definition handle (cid : string) (i : input) : M Server unit :=
  with_closing_session (
    ps_msg <- first (messages_by_id (cluster_id i) (msg_id i)) ;;
    match ps_msg with
    | None =>
        raise (NotFound cid ("Message not found `" +:+ msg_id i +:+ "`"))
    | Some ps_msg =>
        ps_topic <- one (topics_by_id (cluster_id i)
                           (PubSubMessage.topic_id ps_msg)) ;;
        with_lock ("zato.pubsub.publish." +:+ PubSubTopic.name ps_topic) (
          session_delete ps_msg ;;;
          session_commit)
    end) ;;;
  logger_info ("Deleted GD message `" +:+ msg_id i +:+ "`").
End Delete.

(** [class DeleteGD(Delete): pass] *)
Module DeleteGD.
Definition handle := Delete.handle.
End DeleteGD.

(** ** Update services *)

(** Calling a method that declares [params] positional parameters (after
    [self]) with [nargs] positional arguments. *)
Definition call {S A} (nargs params : nat) (body : M S A) : M S A :=
  if decide (nargs = params) then body
  else raise (TypeError "wrong number of positional arguments").

(** A Python [str] whose characters the code counts or slices: the
    sequence of its code points.  [len] is the number of code points and
    [s[:n]] the first [n] of them. *)
Definition text : Type := list N.

Module _Update.
Record input : Type := Input {
  cluster_id : Z;
  msg_id : string;
  mime_type : string;
  data : text;
  expiration : option Z;
  correl_id : option string;
  in_reply_to : option string;
  priority : option Z;
  exp_from_now : bool;
}.

Record payload : Type := Payload {
  out_msg_id : string;
  found : bool;
  size : option Z;
  expiration_time : option string;
}.

(** What a subclass supplies: the class attribute and the two
    overridden methods, each with the number of positional parameters
    its [def] declares. *)
Record subclass : Type := Subclass {
  _message_update_has_gd : bool;
  _get_item_params : nat;
  _get_item : input → M Server (option Message);
  _save_item_params : nat;
  _save_item : Message → M Server unit;
}.

Section handle.
Context (datetime_from_ms : Qc → string).
(** [zato.server.pubsub.get_expiration] and [get_priority], which
    are missing: they validate the input and fill in defaults. *)
Context (get_expiration : string → input → result (option Z)).
Context (get_priority : string → input → result Z).
(** [text.encode('utf8')]: the bytes of a text. *)
Context (encode_utf8 : text → string).

(** The time an expiration counts from (lines 242-245). *)
Definition expiration_base (i : input) (item : Message) : M Server Qc :=
  if exp_from_now i then gets utcnow
  else ret (PubSubMessage.pub_time item).

(** The assignments to [item] (lines 230-248). *)
Definition overwrite (cid : string) (i : input) (item : Message)
    : M Server Message :=
  prefix_len <- gets (λ s, data_prefix_len (pubsub s)) ;;
  prefix_short_len <- gets (λ s, data_prefix_short_len (pubsub s)) ;;
  expiration <- lift_result (get_expiration cid i) ;;
  priority <- lift_result (get_priority cid i) ;;
  expiration_time <-
    (if truthy_int expiration then
       from_ <- expiration_base i item ;;
       ret (Some (from_ + Qc_of_Z (default 0%Z expiration) / Qc_of_Z 1000)%Qc)
     else ret None) ;;
  ret (PubSubMessage.Build
         (PubSubMessage.id item)
         (PubSubMessage.cluster_id item)
         (PubSubMessage.pub_msg_id item)
         (PubSubMessage.topic_id item)
         (correl_id i)
         (in_reply_to i)
         (mime_type i)
         priority
         expiration
         (Z.of_nat (length (data i)))
         (encode_utf8 (data i))
         (encode_utf8 (take prefix_len (data i)))
         (encode_utf8 (take prefix_short_len (data i)))
         (PubSubMessage.pub_time item)
         (PubSubMessage.ext_pub_time item)
         expiration_time).

Definition handle (c : subclass) (cid : string) (i : input)
    : M Server payload :=
  (* session = self.odb.session() if self._message_update_has_gd else session *)
  (if _message_update_has_gd c then odb_session
   else raise (UnboundLocalError "session")) ;;;
  try_finally (
    item <- call 1 (_get_item_params c) (_get_item c i) ;;
    match item with
    | None => ret (Payload (msg_id i) false None None)
    | Some item =>
        item <- overwrite cid i item ;;
        call 2 (_save_item_params c) (_save_item c item) ;;;
        ret (Payload (msg_id i) true
               (Some (PubSubMessage.size item))
               (if truthy_num (PubSubMessage.expiration_time item)
                then Some (datetime_from_ms
                             (default 0%Qc (PubSubMessage.expiration_time item)
                              * Qc_of_Z 1000))
                else None))
    end)
    (* finally: if session: session.close() *)
    session_close.
End handle.
End _Update.

Module UpdateGD.
(** The body runs the query, binds a local and returns nothing. *)
Definition _get_item (i : _Update.input) : M Server (option Message) :=
  item <- first (messages_by_id (_Update.cluster_id i) (_Update.msg_id i)) ;;
  ret None.

Definition _save_item (item : Message) : M Server unit :=
  session_add item ;;;
  session_commit.

(** [def _get_item(self, input, session)], [def _save_item(self, item, session)] *)
Definition class : _Update.subclass :=
  _Update.Subclass true 2 _get_item 2 _save_item.
End UpdateGD.

Module UpdateNonGD.
Definition _get_item (i : _Update.input) : M Server (option Message) :=
  raise (NameError "zzz").

Definition _save_item (item : Message) : M Server unit :=
  raise (NameError "qqq").

(** [def _get_item(self, input, _ignored)], [def _save_item(self, item, _ignored)] *)
Definition class : _Update.subclass :=
  _Update.Subclass false 2 _get_item 2 _save_item.
End UpdateNonGD.

(** ** The heap of dicts of a server process *)

Definition set_heap (f : gmap nat pydict → gmap nat pydict) (p : PubSub) : PubSub :=
  {| heap := f (heap p); msg_id_to_msg := msg_id_to_msg p;
     endpoints := endpoints p; data_prefix_len := data_prefix_len p;
     data_prefix_short_len := data_prefix_short_len p |}.

Definition set_msg_id_to_msg (f : gmap string nat → gmap string nat)
    (p : PubSub) : PubSub :=
  {| heap := heap p; msg_id_to_msg := f (msg_id_to_msg p);
     endpoints := endpoints p; data_prefix_len := data_prefix_len p;
     data_prefix_short_len := data_prefix_short_len p |}.

(** The dict a reference points to.  A reference the program holds always
    points to a dict; the last case is there to make the function total. *)
Definition deref (ref : nat) : M Server pydict :=
  d <- gets (λ s, heap (pubsub s) !! ref) ;;
  match d with
  | Some d => ret d
  | None => raise (SystemError "dangling reference")
  end.

(** [copy.deepcopy(obj)]: a new dict with the same items.  The values of
    a message are immutable, so the copy shares nothing that can change. *)
Definition deepcopy (ref : nat) : M Server nat :=
  d <- deref ref ;;
  new <- gets (λ s, fresh (dom (heap (pubsub s)))) ;;
  modify (set_pubsub (set_heap <[new := d]>)) ;;;
  ret new.

(** [d[key]] *)
Definition getitem (ref : nat) (key : string) : M Server pyval :=
  d <- deref ref ;;
  match d !! key with
  | Some v => ret v
  | None => raise (KeyError key)
  end.

(** [d[key] = v] *)
Definition setitem (ref : nat) (key : string) (v : pyval) : M Server unit :=
  d <- deref ref ;;
  modify (set_pubsub (set_heap <[ref := <[key := v]> d]>)).

(** [d.pop(key)] *)
Definition pop (ref : nat) (key : string) : M Server pyval :=
  d <- deref ref ;;
  match d !! key with
  | Some v => modify (set_pubsub (set_heap <[ref := delete key d]>)) ;;; ret v
  | None => raise (KeyError key)
  end.

(** [d.pop(key, default)] *)
Definition pop_default (ref : nat) (key : string) (dflt : pyval)
    : M Server pyval :=
  d <- deref ref ;;
  match d !! key with
  | Some v => modify (set_pubsub (set_heap <[ref := delete key d]>)) ;;; ret v
  | None => ret dflt
  end.

(** [if v:] *)
Definition truthy (v : pyval) : bool :=
  match v with
  | VNone => false
  | VBool b => b
  | VInt z => negb (z =? 0)
  | VFloat q => negb (bool_decide (q = 0%Qc))
  | VStr s => negb (bool_decide (s = ""))
  end.

Definition as_number (v : pyval) : option Qc :=
  match v with
  | VBool b => Some (if b then 1%Qc else 0%Qc)
  | VInt z => Some (Qc_of_Z z)
  | VFloat q => Some q
  | VNone | VStr _ => None
  end.

(** [v * x] for a float [x] *)
Definition mul_float (v : pyval) (x : Qc) : result Qc :=
  match as_number v with
  | Some q => Ok (q * x)%Qc
  | None => Raise (TypeError "unsupported operand type(s) for *")
  end.

(** ** Non-GD services *)

(** Modelled from the spec: [SyncBacklog.get_message_by_id] of
    [zato.server.pubsub] is missing; the spec gives the non-GD store
    [get_by_id(msg_id)], which returns the message or fails with
    [NotFound].  It returns the stored dict itself, not a copy. *)
Definition get_message_by_id (cid msg_id : string) : M Server nat :=
  ref <- gets (λ s, msg_id_to_msg (pubsub s) !! msg_id) ;;
  match ref with
  | Some ref => ret ref
  | None => raise (NotFound cid ("No such message `" +:+ msg_id +:+ "`"))
  end.

(** Modelled from the spec: [PubSub.get_endpoint_by_id] is missing; the
    spec's endpoint directory resolves an endpoint ID to the endpoint,
    read-only.  An ID the directory does not hold is a failed dict
    lookup. *)
Definition get_endpoint_by_id (endpoint_id : pyval) : M Server PubSubEndpoint.t :=
  match endpoint_id with
  | VInt z =>
      e <- gets (λ s, endpoints (pubsub s) !! z) ;;
      match e with
      | Some e => ret e
      | None => raise (KeyError (pretty z))
      end
  | _ => raise (KeyError "endpoint_id")
  end.

(** Modelled from the spec: [SyncBacklog.delete_msg_by_id] is missing;
    the spec's [delete_by_id(msg_id)] removes the message from the
    backlog.  What it does with an ID that is not there the spec leaves
    open, silent success or an error; [on_missing] is that policy:
    [None] for silent success, [Some e] for raising [e]. *)
Definition delete_msg_by_id (on_missing : option exn) (msg_id : string)
    : M Server unit :=
  ref <- gets (λ s, msg_id_to_msg (pubsub s) !! msg_id) ;;
  match ref, on_missing with
  | None, Some e => raise e
  | _, _ => modify (set_pubsub (set_msg_id_to_msg (delete msg_id)))
  end.

Module GetFromServerTopicNonGD.
Record input : Type := Input { msg_id : string }.

Section handle.
Context (datetime_from_ms : Qc → string).

Definition handle (cid : string) (i : input) : M Server pydict :=
  msg <- get_message_by_id cid (msg_id i) ;;
  msg <- deepcopy msg ;;
  v <- pop msg "pub_msg_id" ;;
  setitem msg "msg_id" v ;;;
  v <- pop_default msg "pub_correl_id" VNone ;;
  setitem msg "correl_id" v ;;;
  v <- getitem msg "pub_time" ;;
  ms <- lift_result (mul_float v (Qc_of_Z 1000)) ;;
  setitem msg "pub_time" (VStr (datetime_from_ms ms)) ;;;
  expiration_time <- pop_default msg "expiration_time" VNone ;;
  (if truthy expiration_time then
     ms <- lift_result (mul_float expiration_time (Qc_of_Z 1000)) ;;
     setitem msg "expiration_time" (VStr (datetime_from_ms ms))
   else ret tt) ;;;
  v <- pop msg "published_by_id" ;;
  setitem msg "endpoint_id" v ;;;
  v <- getitem msg "endpoint_id" ;;
  endpoint <- get_endpoint_by_id v ;;
  setitem msg "endpoint_name" (VStr (PubSubEndpoint.name endpoint)) ;;;
  (* self.response.payload = msg *)
  deref msg.
End handle.
End GetFromServerTopicNonGD.

Module DeleteNonGDMessage.
Record input : Type := Input { msg_id : string }.

Section handle.
Context (on_missing : option exn).

Definition handle (i : input) : M Server unit :=
  delete_msg_by_id on_missing (msg_id i).
End handle.
End DeleteNonGDMessage.

(** ** The servers of a cluster *)

(** The server the admin service runs in and the other server processes,
    by name and PID. *)
Record Cluster : Type := {
  this : Server;
  this_name : string;
  this_pid : Z;
  remote : gmap (string * Z) Server;
}.

Definition set_this (f : Server → Server) (c : Cluster) : Cluster :=
  {| this := f (this c); this_name := this_name c; this_pid := this_pid c;
     remote := remote c |}.

Definition set_remote (f : gmap (string * Z) Server → gmap (string * Z) Server)
    (c : Cluster) : Cluster :=
  {| this := this c; this_name := this_name c; this_pid := this_pid c;
     remote := f (remote c) |}.

(** The server process a name and a PID address, if there is one. *)
Definition target (c : Cluster) (server_name : string) (pid : Z) : option Server :=
  if decide ((server_name, pid) = (this_name c, this_pid c)) then Some (this c)
  else remote c !! (server_name, pid).

(** Modelled from the spec: [self.servers[name].invoke(service, request,
    pid=pid)] is missing; the spec's remote dispatch runs the service in
    the addressed process and returns its response or its failure, and
    fails with a communication error when no such process is there. *)
Definition invoke {A} (server_name : string) (pid : Z) (service : M Server A)
    : M Cluster A :=
  λ c,
    if decide ((server_name, pid) = (this_name c, this_pid c)) then
      match service (this c) with
      | (r, s') => (r, set_this (λ _, s') c)
      end
    else
      match remote c !! (server_name, pid) with
      | Some s =>
          match service s with
          | (r, s') => (r, set_remote <[(server_name, pid) := s']> c)
          end
      | None =>
          (Raise (CommunicationFailure ("No such server `" +:+ server_name +:+ "`")), c)
      end.

(** A service of this server, run from the cluster's point of view. *)
Definition local {A} (m : M Server A) : M Cluster A :=
  λ c, match m (this c) with (r, s') => (r, set_this (λ _, s') c) end.

Module DeleteNonGD.
Record input : Type := Input {
  cluster_id : Z;
  server_name : string;
  server_pid : Z;
  msg_id : string;
}.

Section handle.
Context (on_missing : option exn).

Definition handle (i : input) : M Cluster unit :=
  invoke (server_name i) (server_pid i)
    (DeleteNonGDMessage.handle on_missing
       (DeleteNonGDMessage.Input (msg_id i))) ;;;
  local (logger_info ("Deleted non-GD message `" +:+ msg_id i +:+ "` from `"
                      +:+ server_name i +:+ ":" +:+ pretty (server_pid i) +:+ "`")).
End handle.
End DeleteNonGD.

Module GetFromTopicNonGD.
Record input : Type := Input {
  msg_id : string;
  server_name : string;
  server_pid : Z;
}.

Section handle.
Context (datetime_from_ms : Qc → string).

Definition handle (cid : string) (i : input) : M Cluster pydict :=
  invoke (server_name i) (server_pid i)
    (GetFromServerTopicNonGD.handle datetime_from_ms cid
       (GetFromServerTopicNonGD.Input (msg_id i))).
End handle.
End GetFromTopicNonGD.

(** ** The client protocol: subscribe, publish, receive *)

(** The server side of the protocol is not among the sources, only its
    test ([test_pubapi.py]) is.  The protocol is modelled from the spec
    (sections 4.4 and 6), one state for all credentials and topics. *)
Module PubAPI.
(** Modelled from the spec: a published message; [pub_time] counts
    publications, so a later message has a greater one. *)
Record message : Type := Message {
  msg_id : string;
  data : string;
  pub_time : nat;
}.

(** Modelled from the spec: a queue entry as [Receive] returns it. *)
Record entry : Type := Entry {
  e_msg_id : string;
  e_data : string;
  e_size : nat;
  e_sub_key : string;
  e_delivery_count : nat;
  e_topic_name : string;
  e_has_gd : bool;
  e_pub_time : nat;
}.

Inductive response : Type :=
  | Empty                                                 (* {} *)
  | SubscribeResponse (sub_key : string) (queue_depth : nat)
  | PublishResponse (msg_id : string)
  | ReceiveResponse (entries : list entry).

#[global] Instance entry_eq_dec : EqDecision entry.
Proof. solve_decision. Defined.
#[global] Instance response_eq_dec : EqDecision response.
Proof. solve_decision. Defined.

(** Modelled from the spec: the subscription of each (credential,
    topic) pair, if it has one; the messages of each topic, oldest
    first; how often each message was delivered to each subscription. *)
Record state : Type := State {
  subs : gmap (string * string) string;
  topic_messages : gmap string (list message);
  deliveries : gmap (string * string) nat;
  next_msg : nat;
  next_sub : nat;
}.

Definition initial : state := State ∅ ∅ ∅ 0 0.

Definition messages_of (s : state) (topic : string) : list message :=
  default [] (topic_messages s !! topic).

Section protocol.
(** [MSG_PREFIX.MSG_ID] and [prefix_sk] of [zato.common.pubsub] *)
Context (MSG_ID prefix_sk : string).

(** Modelled from the spec: [Subscribe] answers with a new
    subscription key and the queue depth, or with nothing when the
    pair is subscribed already. *)
Definition subscribe (credential topic : string) : M state response :=
  λ s,
    match subs s !! (credential, topic) with
    | Some _ => (Ok Empty, s)
    | None =>
        let sub_key := prefix_sk +:+ pretty (next_sub s) in
        (Ok (SubscribeResponse sub_key (length (messages_of s topic))),
         State (<[(credential, topic) := sub_key]> (subs s))
           (topic_messages s) (deliveries s) (next_msg s) (S (next_sub s)))
    end.

(** Modelled from the spec: [Unsubscribe] removes the subscription
    of the pair, if any, and answers with nothing. *)
Definition unsubscribe (credential topic : string) : M state response :=
  λ s,
    (Ok Empty,
     State (delete (credential, topic) (subs s))
       (topic_messages s) (deliveries s) (next_msg s) (next_sub s)).

(** Modelled from the spec: [Publish] allocates a message ID, stores
    the message in the topic and answers with the ID. *)
Definition publish (topic data : string) : M state response :=
  λ s,
    let msg := Message (MSG_ID +:+ pretty (next_msg s)) data (next_msg s) in
    (Ok (PublishResponse (msg_id msg)),
     State (subs s)
       (<[topic := messages_of s topic ++ [msg]]> (topic_messages s))
       (deliveries s) (S (next_msg s)) (next_sub s)).

Definition delivered (s : state) (sub_key : string) (m : message) : nat :=
  default 0%nat (deliveries s !! (sub_key, msg_id m)).

Definition entry_of (s : state) (topic sub_key : string) (m : message)
    : entry :=
  Entry (msg_id m) (data m) (String.length (data m)) sub_key
    (S (delivered s sub_key m)) topic true (pub_time m).

(** Modelled from the spec: [Receive] returns the messages queued
    for the caller's subscription, the most recently published
    first, and counts a delivery for each; without a subscription
    it fails. *)
Definition receive (credential topic : string) : M state response :=
  λ s,
    match subs s !! (credential, topic) with
    | None => (Raise (Exception "No sub for endpoint"), s)
    | Some sub_key =>
        let batch := reverse (messages_of s topic) in
        (Ok (ReceiveResponse (entry_of s topic sub_key <$> batch)),
         State (subs s) (topic_messages s)
           (foldr (λ m d, <[(sub_key, msg_id m) := S (delivered s sub_key m)]> d)
              (deliveries s) batch)
           (next_msg s) (next_sub s))
    end.

(** Publications one after the other. *)
Fixpoint publish_all (topic : string) (payloads : list string) (s : state)
    : state :=
  match payloads with
  | [] => s
  | data :: payloads => publish_all topic payloads (snd (publish topic data s))
  end.
End protocol.

(** The messages of every topic are in the order of their
    publication, and no message is from the future. *)
Definition wf (s : state) : Prop :=
  ∀ topic msgs, topic_messages s !! topic = Some msgs →
    StronglySorted lt (pub_time <$> msgs)
    ∧ Forall (λ m, (pub_time m < next_msg s)%nat) msgs.
End PubAPI.

(** ** The test of the client protocol *)

(** [test_pubapi.py], run against the protocol above.  [rest_client]
    calls are the protocol's operations under the test's credential and
    topic; the assertions on what the model does not carry (priority,
    MIME type, expiration, the ISO dates, the length of the random part
    of a subscription key) are left out. *)
Module PubAPITestCase.
(** [PUBSUB.DEFAULT.DEMO_USERNAME]; its value is not among the sources
    and does not matter here. *)
Definition username : string := "pubsub.demo".
Definition topic_name : string := "/zato/demo/sample".

Definition assertTrue (b : bool) : M PubAPI.state unit :=
  if b then ret tt else raise (AssertionError "False is not true").

Section test.
Context (MSG_ID prefix_sk : string).

Definition _publish (data : string) : M PubAPI.state PubAPI.response :=
  PubAPI.publish MSG_ID topic_name data.

Definition _receive : M PubAPI.state (list PubAPI.entry) :=
  response <- PubAPI.receive username topic_name ;;
  match response with
  | PubAPI.ReceiveResponse entries => ret entries
  | _ => raise (TypeError "not a list")
  end.

(** [return response['sub_key']] *)
Definition _subscribe : M PubAPI.state string :=
  response <- PubAPI.subscribe prefix_sk username topic_name ;;
  match response with
  | PubAPI.SubscribeResponse sub_key _ => ret sub_key
  | _ => raise (KeyError "sub_key")
  end.

(** [self.assertDictEqual(response, {})] *)
Definition _unsubscribe : M PubAPI.state PubAPI.response :=
  response <- PubAPI.unsubscribe username topic_name ;;
  match response with
  | PubAPI.Empty => ret response
  | _ => raise (AssertionError "response is not {}")
  end.

(** [FullPathTester.run] *)
Definition FullPathTester_run (sub_before_publish : bool) (data : string)
    : M PubAPI.state unit :=
  let sub_after_publish := negb sub_before_publish in
  _unsubscribe ;;;
  sub_key <- (if sub_before_publish then k <- _subscribe ;; ret (Some k)
              else ret None) ;;
  response_publish <- _publish data ;;
  msg_id <- match response_publish with
            | PubAPI.PublishResponse msg_id => ret msg_id
            | _ => raise (KeyError "msg_id")
            end ;;
  assertTrue (String.prefix MSG_ID msg_id) ;;;
  sub_key <- (if sub_after_publish then k <- _subscribe ;; ret (Some k)
              else ret sub_key) ;;
  response_received <- _receive ;;
  msg_received <- match response_received with
                  | msg :: _ => ret msg
                  | [] => raise (IndexError "list index out of range")
                  end ;;
  assertTrue (bool_decide (PubAPI.e_data msg_received = data)) ;;;
  assertTrue (bool_decide (PubAPI.e_size msg_received = String.length data)) ;;;
  assertTrue (bool_decide (Some (PubAPI.e_sub_key msg_received) = sub_key)) ;;;
  assertTrue (bool_decide (PubAPI.e_delivery_count msg_received = 1%nat)) ;;;
  assertTrue (bool_decide (PubAPI.e_topic_name msg_received = topic_name)) ;;;
  assertTrue (PubAPI.e_has_gd msg_received).

(** [xtest_self_unsubscribe] *)
Definition xtest_self_unsubscribe : M PubAPI.state unit :=
  response <- _unsubscribe ;;
  assertTrue (bool_decide (response = PubAPI.Empty)) ;;;
  response <- _unsubscribe ;;
  assertTrue (bool_decide (response = PubAPI.Empty)).

(** [xtest_self_subscribe] *)
Definition xtest_self_subscribe : M PubAPI.state unit :=
  _unsubscribe ;;;
  response_initial <- PubAPI.subscribe prefix_sk username topic_name ;;
  sub_key <- match response_initial with
             | PubAPI.SubscribeResponse sub_key _ => ret sub_key
             | _ => raise (KeyError "sub_key")
             end ;;
  assertTrue (String.prefix prefix_sk sub_key) ;;;
  response_already_subscribed
    <- PubAPI.subscribe prefix_sk username topic_name ;;
  assertTrue (bool_decide (response_already_subscribed = PubAPI.Empty)).
End test.
End PubAPITestCase.

(** ** Statements about the GD services *)

(** A stand-in for [datetime_from_ms] to run examples with: it prints
    the milliseconds as a fraction after the epoch. *)
Definition sample_datetime_from_ms (ms : Qc) : string :=
  "1970-01-01T00:00:00+" +:+ pretty (Qnum ms) +:+ "/"
    +:+ pretty (Npos (Qden ms)) +:+ "ms".

(** Seconds since the epoch as the caller sees them. *)
Definition iso_of_seconds (datetime_from_ms : Qc → string) (t : Qc) : string :=
  datetime_from_ms (t * Qc_of_Z 1000)%Qc.

(** An optional timestamp rendered as the claim about [GetFromTopicGD]
    has it: translated when present, empty when absent. *)
Definition iso_if_present (datetime_from_ms : Qc → string) (t : option Qc)
    : string :=
  match t with
  | Some t => iso_of_seconds datetime_from_ms t
  | None => ""
  end.

(** An optional timestamp rendered as the code has it: a timestamp of
    zero is rendered like an absent one. *)
Definition iso_if_set (datetime_from_ms : Qc → string) (t : option Qc)
    : string :=
  match t with
  | Some t => if decide (t = 0%Qc) then "" else iso_of_seconds datetime_from_ms t
  | None => ""
  end.

(** The primary key of the message table. *)
Definition primary_key_unique (db : Database) : Prop :=
  ∀ m1 m2 : Message,
    m1 ∈ messages db → m2 ∈ messages db →
    PubSubMessage.id m1 = PubSubMessage.id m2 → m1 = m2.

(** The unique index of the message table on the cluster and the
    message ID. *)
Definition msg_id_unique (db : Database) : Prop :=
  ∀ m1 m2 : Message,
    m1 ∈ messages db → m2 ∈ messages db →
    PubSubMessage.cluster_id m1 = PubSubMessage.cluster_id m2 →
    PubSubMessage.pub_msg_id m1 = PubSubMessage.pub_msg_id m2 →
    m1 = m2.

(** The foreign key of a message to its topic: every message has exactly
    one topic row, in its own cluster. *)
Definition topics_resolve (db : Database) : Prop :=
  ∀ m : Message, m ∈ messages db →
    ∃ t, topics_by_id (PubSubMessage.cluster_id m) (PubSubMessage.topic_id m) db = [t].

(** The constraints of the schema the services rely on. *)
Definition integrity (db : Database) : Prop :=
  primary_key_unique db ∧ msg_id_unique db ∧ topics_resolve db.

(** ** Sample data *)

Definition no_pubsub : PubSub :=
  {| heap := ∅; msg_id_to_msg := ∅; endpoints := ∅;
     data_prefix_len := 2048; data_prefix_short_len := 200 |}.

Definition server_with (cluster : Z) (db : Database) (p : PubSub) : Server :=
  {| server_cluster_id := cluster; odb := db; txn := None; pubsub := p;
     utcnow := Qc_of_Z 1700000000; trace := [] |}.

(** A message of topic 7 in cluster 1, published at [pub_time], that
    expires a minute later. *)
Definition sample_message (id : Z) (msg_id : string) (pub_time : Qc)
    (ext_pub_time : option Qc) : Message :=
  PubSubMessage.Build id 1 msg_id 7 None None "text/plain" 5 (Some 60000)
    5 "hello" "hello" "hello" pub_time ext_pub_time
    (Some (pub_time + Qc_of_Z 60)%Qc).

Definition sample_topic : PubSubTopic.t :=
  PubSubTopic.Build 7 1 "/zato/demo/sample".

Definition sample_entry (msg_id sub_key : string) : PubSubEndpointEnqueuedMessage.t :=
  PubSubEndpointEnqueuedMessage.Build msg_id sub_key 0 true.

(** A message whose external publication time is the epoch itself. *)
Definition epoch_message : Message :=
  sample_message 1 "zpsm001" (Qc_of_Z 1600000000) (Some 0%Qc).

Definition epoch_db : Database :=
  {| messages := [epoch_message]; topics := [sample_topic]; queue := [] |}.

Definition sample_db : Database :=
  {| messages :=
       [sample_message 1 "zpsm001" (Qc_of_Z 1600000000) None;
        sample_message 2 "zpsm002" (Qc_of_Z 1600000060) None];
     topics := [sample_topic];
     queue :=
       [sample_entry "zpsm001" "zpsk.a"; sample_entry "zpsm002" "zpsk.a";
        sample_entry "zpsm001" "zpsk.b"] |}.

(** ** Statements about the update services *)


(** The code points of an ASCII literal. *)
Definition text_of_string (s : string) : text :=
  Ascii.N_of_ascii <$> list_ascii_of_string s.

(** A stand-in for [str.encode('utf8')] to run examples with. *)
Definition utf8_char (c : N) : list N :=
  if (c <? 128)%N then [c]
  else if (c <? 2048)%N then [192 + c / 64; 128 + c mod 64]%N
  else if (c <? 65536)%N then
    [224 + c / 4096; 128 + (c / 64) mod 64; 128 + c mod 64]%N
  else [240 + c / 262144; 128 + (c / 4096) mod 64;
        128 + (c / 64) mod 64; 128 + c mod 64]%N.

Definition sample_encode_utf8 (t : text) : string :=
  string_of_list_ascii (Ascii.ascii_of_N <$> concat (utf8_char <$> t)).

Definition sample_get_expiration (cid : string) (i : _Update.input)
    : result (option Z) :=
  match _Update.expiration i with
  | Some e => if e <? 0 then Raise (BadRequest cid "Expiration must not be negative")
              else Ok (Some e)
  | None => Ok (Some 86400000)
  end.

Definition sample_get_priority (cid : string) (i : _Update.input) : result Z :=
  Ok (default 5 (_Update.priority i)).

Definition sample_update : _Update.input :=
  _Update.Input 1 "zpsm001" "text/plain" (text_of_string "new") (Some 30000)
    None None None false.

(** ** Statements about the non-GD services *)

(** [keeps P m]: running [m] in a state where [P] holds ends, with a
    result or an exception, in a state where [P] holds. *)
Definition keeps {S A} (P : S → Prop) (m : M S A) : Prop :=
  ∀ s, P s → P (snd (m s)).

(** The backlog is [b0] and every dict of the heap [h0] is as in [h0]. *)
Definition frame (h0 : gmap nat pydict) (b0 : gmap string nat) (s : Server) : Prop :=
  msg_id_to_msg (pubsub s) = b0
  ∧ ∀ ref, ref ∈ dom h0 → heap (pubsub s) !! ref = h0 !! ref.

(** The keys [GetFromServerTopicNonGD] removes or assigns. *)
Definition reshaped_keys : list string :=
  ["pub_msg_id"; "msg_id"; "pub_correl_id"; "correl_id"; "pub_time";
   "expiration_time"; "published_by_id"; "endpoint_id"; "endpoint_name"].

(** A non-GD message as the backlog holds it, published by endpoint 3. *)
Definition sample_non_gd : pydict :=
  {[ "pub_msg_id" := VStr "zpsm900";
     "pub_correl_id" := VStr "abc";
     "pub_time" := VFloat (Qc_of_Z 1600000000);
     "expiration_time" := VFloat (Qc_of_Z 1600000060);
     "published_by_id" := VInt 3;
     "data" := VStr "hello";
     "has_gd" := VBool false ]}.

Definition sample_pubsub : PubSub :=
  {| heap := {[ 0%nat := sample_non_gd ]};
     msg_id_to_msg := {[ "zpsm900" := 0%nat ]};
     endpoints := {[ 3 := PubSubEndpoint.Build "zato.demo" ]};
     data_prefix_len := 2048; data_prefix_short_len := 200 |}.

Definition sample_cluster : Cluster :=
  {| this := server_with 1 sample_db no_pubsub;
     this_name := "server1"; this_pid := 100;
     remote := {[ ("server2", 200) := server_with 1 sample_db sample_pubsub ]} |}.

(** The state in which the dict at [ref] is [d]. *)
Definition with_dict (ref : nat) (d : pydict) (s : Server) : Server :=
  set_pubsub (set_heap <[ref := d]>) s.

(** ** Sample protocol states *)

Definition sample_subscribed : PubAPI.state :=
  snd (PubAPI.subscribe "zpsk" PubAPITestCase.username PubAPITestCase.topic_name
         PubAPI.initial).

(** ** [GetFromQueue] *)

(** [x or None] *)
Definition or_None (v : pyval) : pyval :=
  if truthy v then v else VNone.

(** [obj.name] *)
Definition getattr (obj : pydict) (name : string) : result pyval :=
  match obj !! name with
  | Some v => Ok v
  | None => Raise (AttributeError name)
  end.

Module GetFromQueue.
Record input : Type := Input {
  cluster_id : Z;
  msg_id : string;
}.

(** The attributes the handler converts, in the order of its loop. *)
Definition time_names : list string :=
  ["expiration_time"; "recv_time"; "ext_pub_time"; "last_delivery_time"].

Section handle.
Context (datetime_from_ms : Qc → string).
(** The query [pubsub_queue_message] of [zato.common.odb.query], which
    is missing: the rows it selects for a cluster and a message ID, each
    an object with the selected columns as attributes. *)
Context (pubsub_queue_message : Z → string → Database → list pydict).

(** [datetime_from_ms(value)]; the helper adds the value to the epoch
    as milliseconds, which needs a number. *)
Definition to_datetime (value : pyval) : result pyval :=
  match as_number value with
  | Some ms => Ok (VStr (datetime_from_ms ms))
  | None => Raise (TypeError "unsupported type for timedelta milliseconds component")
  end.

(** One round of the loop: [value = getattr(item, name, None)], then
    [if value: setattr(item, name, datetime_from_ms(value))]. *)
Definition convert (item : pydict) (name : string) : result pydict :=
  let value := default VNone (item !! name) in
  if truthy value then
    match to_datetime value with
    | Ok s => Ok (<[name := s]> item)
    | Raise e => Raise e
    end
  else Ok item.

(** [for name in names: ...] *)
Fixpoint convert_all (names : list string) (item : pydict) : result pydict :=
  match names with
  | [] => Ok item
  | name :: names =>
      match convert item name with
      | Ok item => convert_all names item
      | Raise e => Raise e
      end
  end.

Definition handle (cid : string) (i : input) : M Server pydict :=
  with_closing_session (
    item <- first (pubsub_queue_message (cluster_id i) (msg_id i)) ;;
    match item with
    | Some item =>
        expiration <- lift_result (getattr item "expiration") ;;
        let item := <["expiration" := or_None expiration]> item in
        lift_result (convert_all time_names item)
    | None =>
        raise (NotFound cid ("No such message `" +:+ msg_id i +:+ "`"))
    end).
End handle.
End GetFromQueue.

(** ** Statements about the services *)

(** What [GetFromQueue] leaves in a time attribute: a set value is
    replaced by the string [datetime_from_ms] makes of it, as it is;
    an unset one stays. *)
Definition queue_time (datetime_from_ms : Qc → string) (v : option pyval)
    : option pyval :=
  match v with
  | Some v => if truthy v then (λ ms, VStr (datetime_from_ms ms)) <$> as_number v
              else Some v
  | None => None
  end.

(** The time attributes of a row hold numbers or nothing. *)
Definition times_numeric (item : pydict) : Prop :=
  ∀ name v, name ∈ GetFromQueue.time_names → item !! name = Some v →
            truthy v = true → is_Some (as_number v).

(** The endpoint of an ID, as [get_endpoint_by_id] finds it. *)
Definition endpoint_of (endpoints : gmap Z PubSubEndpoint.t) (endpoint_id : pyval)
    : result PubSubEndpoint.t :=
  match endpoint_id with
  | VInt z =>
      match endpoints !! z with
      | Some e => Ok e
      | None => Raise (KeyError (pretty z))
      end
  | _ => Raise (KeyError "endpoint_id")
  end.

(** The answer of [GetFromServerTopicNonGD] as a function of the stored
    record and the endpoint directory alone. *)
Definition public_view (datetime_from_ms : Qc → string)
    (endpoints : gmap Z PubSubEndpoint.t) (d : pydict) : result pydict :=
  match d !! "pub_msg_id" with
  | None => Raise (KeyError "pub_msg_id")
  | Some msg_id =>
      let d := <["msg_id" := msg_id]> (delete "pub_msg_id" d) in
      let d := <["correl_id" := default VNone (d !! "pub_correl_id")]>
                 (delete "pub_correl_id" d) in
      match d !! "pub_time" with
      | None => Raise (KeyError "pub_time")
      | Some pub_time =>
          match mul_float pub_time (Qc_of_Z 1000) with
          | Raise e => Raise e
          | Ok ms =>
              let d := <["pub_time" := VStr (datetime_from_ms ms)]> d in
              let expiration_time := default VNone (d !! "expiration_time") in
              let d := delete "expiration_time" d in
              match (if truthy expiration_time then
                       match mul_float expiration_time (Qc_of_Z 1000) with
                       | Ok ms =>
                           Ok (<["expiration_time" := VStr (datetime_from_ms ms)]> d)
                       | Raise e => Raise e
                       end
                     else Ok d) with
              | Raise e => Raise e
              | Ok d =>
                  match d !! "published_by_id" with
                  | None => Raise (KeyError "published_by_id")
                  | Some endpoint_id =>
                      let d := <["endpoint_id" := endpoint_id]>
                                 (delete "published_by_id" d) in
                      match endpoint_of endpoints endpoint_id with
                      | Raise e => Raise e
                      | Ok endpoint =>
                          Ok (<["endpoint_name" := VStr (PubSubEndpoint.name endpoint)]> d)
                      end
                  end
              end
          end
      end
  end.

(** A queue row of message [zpsm001]: received, not yet delivered. *)
Definition sample_queue_row : pydict :=
  {[ "msg_id" := VStr "zpsm001";
     "expiration" := VInt 0;
     "expiration_time" := VFloat (Qc_of_Z 1600000060000);
     "recv_time" := VFloat (Qc_of_Z 1600000000000);
     "ext_pub_time" := VNone;
     "delivery_count" := VInt 0 ]}.

Definition sample_queue_query (c : Z) (i : string) (db : Database) : list pydict :=
  if decide (c = 1 ∧ i = "zpsm001") then [sample_queue_row] else [].

(** A backlog of two messages, the second without a publication time. *)
Definition sample_pubsub_two : PubSub :=
  {| heap := {[ 0%nat := sample_non_gd;
                1%nat := <["pub_msg_id" := VStr "zpsm901"]>
                           (delete "pub_time" sample_non_gd) ]};
     msg_id_to_msg := {[ "zpsm900" := 0%nat; "zpsm901" := 1%nat ]};
     endpoints := {[ 3 := PubSubEndpoint.Build "zato.demo" ]};
     data_prefix_len := 2048; data_prefix_short_len := 200 |}.

(** The first sample message with a new payload, as an update leaves it. *)
Definition sample_updated : Message :=
  PubSubMessage.Build 1 1 "zpsm001" 7 None None "text/plain" 5 (Some 30000)
    3 "new" "new" "new" (Qc_of_Z 1600000000) None
    (Some (Qc_of_Z 1600000000 + Qc_of_Z 30)%Qc).

(** * Properties *)

Local Close Scope py_scope.

(** ** Running handlers *)

Arguments messages_by_id : simpl never.
Arguments topics_by_id : simpl never.

(** Unfolds the monad and the session operations, leaving queries and
    the state's own fields in place. *)
Ltac py_run :=
  cbv beta iota zeta delta
    [bind ret raise gets modify lift_result try_finally call
     with_closing_session odb_session session_close session_commit
     session_delete session_add session_view with_lock logger_info
     first one exists_scalar pubsub_message
     set_txn set_odb set_pubsub emit from_option id];
  cbn [txn odb trace server_cluster_id pubsub utcnow fst snd].

Lemma bind_Ok {S A B} (m : M S A) (k : A → M S B) s a s' :
  m s = (Ok a, s') → bind m k s = k a s'.
Proof. intros H. unfold bind. by rewrite H. Qed.

Lemma truthy_num_Some q :
  truthy_num (Some q) = if decide (q = 0%Qc) then false else true.
Proof. unfold truthy_num. by case_bool_decide; case_decide. Qed.

Lemma iso_if_set_truthy dfm (t : option Qc) :
  (if truthy_num t then dfm (default 0%Qc t * Qc_of_Z 1000)%Qc else "")
  = iso_if_set dfm t.
Proof.
  destruct t as [q|]; [|done].
  rewrite truthy_num_Some. unfold iso_if_set. by case_decide.
Qed.

(** ** [GetFromTopicGD] *)

(** C2, as the code has it: the GD get service answers with the first
    stored message of that cluster and ID, its [pub_time] translated
    from seconds to the ISO form and [ext_pub_time] and
    [expiration_time] translated when they are set and not zero and
    empty strings otherwise, or raises [NotFound] when there is no such
    message; the session is closed and the database is as before. *)
Theorem GetFromTopicGD_handle_spec (datetime_from_ms : Qc → string)
    (cid : string) (i : GetFromTopicGD.input) (s : Server) :
  GetFromTopicGD.handle datetime_from_ms cid i s =
    (match head (messages_by_id (GetFromTopicGD.cluster_id i)
                   (GetFromTopicGD.msg_id i) (odb s)) with
     | Some m =>
         Ok (PubSubMessage.with_times m
               (iso_of_seconds datetime_from_ms (PubSubMessage.pub_time m))
               (iso_if_set datetime_from_ms (PubSubMessage.ext_pub_time m))
               (iso_if_set datetime_from_ms (PubSubMessage.expiration_time m)))
     | None =>
         Raise (NotFound cid ("No such message `" +:+ GetFromTopicGD.msg_id i +:+ "`"))
     end, set_txn None s).
Proof.
  unfold GetFromTopicGD.handle, with_closing_session, try_finally, bind,
    odb_session, first, gets, modify, pubsub_message, session_close. simpl.
  destruct (head _) as [m|]; simpl; [|done].
  by rewrite !iso_if_set_truthy.
Qed.

(** C2, as stated, fails: a stored [ext_pub_time] of zero (the epoch) is
    present, yet the service renders it as the empty string and not as
    the translated timestamp. *)
Lemma GetFromTopicGD_epoch_ext_pub_time :
  PubSubMessage.ext_pub_time epoch_message = Some 0%Qc
  ∧ (PubSubMessage.ext_pub_time <$>
       head (messages_by_id 1 "zpsm001" (odb (server_with 1 epoch_db no_pubsub))))
     = Some (Some 0%Qc)
  ∧ match fst (GetFromTopicGD.handle sample_datetime_from_ms "cid"
                 (GetFromTopicGD.Input "zpsm001" 1)
                 (server_with 1 epoch_db no_pubsub)) with
    | Ok view =>
        PubSubMessage.ext_pub_time view = ""
        ∧ PubSubMessage.ext_pub_time view
          ≠ iso_if_present sample_datetime_from_ms
              (PubSubMessage.ext_pub_time epoch_message)
    | Raise _ => False
    end.
Proof.
  split; [done|]. split; [done|].
  vm_compute. split; [done|discriminate].
Qed.

(** ** [Has] *)

Lemma Has_handle_eq (i : Has.input) (s : Server) :
  Has.handle i s =
    (Ok (Has.Payload
           (bool_decide (Exists (λ m : Message,
              PubSubMessage.cluster_id m = server_cluster_id s
              ∧ PubSubMessage.pub_msg_id m = Has.msg_id i) (messages (odb s))))),
     set_txn None s).
Proof.
  unfold Has.handle, with_closing_session, try_finally, bind, odb_session,
    exists_scalar, gets, modify, session_close, ret. simpl.
  do 2 f_equal. f_equal.
  unfold messages_by_id.
  destruct (filter _ _) as [|m l] eqn:Hf; symmetry.
  - apply bool_decide_eq_false. intros (m & Hm & HP)%Exists_exists.
    by pose proof (filter_nil_not_elem_of _ _ m Hf HP).
  - apply bool_decide_eq_true. apply Exists_exists. exists m.
    assert (m ∈ m :: l) as Hm by left.
    rewrite <-Hf in Hm. apply list_elem_of_filter in Hm. tauto.
Qed.

(** The answer of [Has] is read off the database and the server's own
    cluster: neither the [cluster_id] of the request nor the in-RAM
    backlog of non-GD messages takes part. *)
Lemma Has_handle_frame (i1 i2 : Has.input) (s1 s2 : Server) :
  Has.msg_id i1 = Has.msg_id i2 →
  odb s1 = odb s2 →
  server_cluster_id s1 = server_cluster_id s2 →
  fst (Has.handle i1 s1) = fst (Has.handle i2 s2).
Proof.
  intros Hi Hdb Hc. rewrite !Has_handle_eq. simpl.
  by rewrite Hi, Hdb, Hc.
Qed.

(** C4, evaluated: on a server of cluster 1 that stores message
    [zpsm001], [Has] asked about cluster 2 answers [found=true] although
    cluster 2 has no such message; it compares with the server's
    cluster, not with the [cluster_id] of the request. *)
Theorem Has_ignores_input_cluster_id :
  messages_by_id 2 "zpsm001" epoch_db = []
  ∧ fst (Has.handle (Has.Input 2 "zpsm001") (server_with 1 epoch_db no_pubsub))
    = Ok (Has.Payload true)
  ∧ fst (Has.handle (Has.Input 1 "zpsm001") (server_with 2 epoch_db no_pubsub))
    = Ok (Has.Payload false).
Proof. by vm_compute. Qed.

(** ** [Delete] *)

Lemma head_messages_by_id c i db m :
  head (messages_by_id c i db) = Some m →
  m ∈ messages db ∧ PubSubMessage.cluster_id m = c
  ∧ PubSubMessage.pub_msg_id m = i.
Proof.
  intros H%head_Some_elem_of. apply list_elem_of_filter in H. tauto.
Qed.

(** Once a message is deleted, no row of its cluster has its ID. *)
Lemma messages_by_id_deleted db m c i :
  msg_id_unique db → m ∈ messages db →
  PubSubMessage.cluster_id m = c → PubSubMessage.pub_msg_id m = i →
  messages_by_id c i (delete_cascade m db) = [].
Proof.
  intros Hu Hm <- <-. apply elem_of_nil_inv. intros x Hx.
  apply list_elem_of_filter in Hx as [[Hc Hi] Hx]. simpl in Hx.
  apply list_elem_of_filter in Hx as [Hne Hx].
  apply Hne. by rewrite (Hu x m).
Qed.



Lemma sample_db_integrity : integrity sample_db.
Proof.
  split; [|split].
  - intros m1 m2 H1%list_elem_of_In H2%list_elem_of_In Hid.
    simpl in H1, H2.
    destruct H1 as [<-|[<-|[]]], H2 as [<-|[<-|[]]]; done.
  - intros m1 m2 H1%list_elem_of_In H2%list_elem_of_In Hc Hi.
    simpl in H1, H2.
    destruct H1 as [<-|[<-|[]]], H2 as [<-|[<-|[]]]; done.
  - intros m H%list_elem_of_In. simpl in H.
    destruct H as [<-|[<-|[]]]; by exists sample_topic.
Qed.


(** What the delete leaves in the sample database. *)
Example Delete_sample :
  let s' := snd (Delete.handle "cid" (Delete.Input 1 "zpsm001")
                   (server_with 1 sample_db no_pubsub)) in
  PubSubMessage.pub_msg_id <$> messages (odb s') = ["zpsm002"]
  ∧ queue (odb s') = [sample_entry "zpsm002" "zpsk.a"].
Proof. by vm_compute. Qed.

(** ** Update services *)

(** C1, on the code: neither update service gets as far as looking the
    message up.  [UpdateGD] raises [TypeError], for [handle] calls
    [_get_item] with one argument and the subclass declares two
    parameters; [UpdateNonGD] raises [UnboundLocalError], for [handle]
    reads the local [session] before it is bound.  Nothing is written.
    So an update of a missing message does not return [found=false], and
    an update of a stored one does not return [found=true]. *)
Theorem Update_handle_raises (datetime_from_ms : Qc → string)
    (get_expiration : string → _Update.input → result (option Z))
    (get_priority : string → _Update.input → result Z)
    (encode_utf8 : text → string)
    (cid : string) (i : _Update.input) (s : Server) :
  _Update.handle datetime_from_ms get_expiration get_priority encode_utf8
      UpdateGD.class cid i s
    = (Raise (TypeError "wrong number of positional arguments"), set_txn None s)
  ∧ _Update.handle datetime_from_ms get_expiration get_priority encode_utf8
      UpdateNonGD.class cid i s
    = (Raise (UnboundLocalError "session"), s).
Proof. done. Qed.

(** The two slips of [UpdateGD._get_item] are independent: with the
    arity as [handle] expects it the method would still return nothing,
    and every update would answer [found=false]. *)
Lemma UpdateGD_get_item_returns_None (i : _Update.input) (s : Server) :
  fst (UpdateGD._get_item i s) = Ok None.
Proof. done. Qed.

Section overwrite.
Context (get_expiration : string → _Update.input → result (option Z)).
Context (get_priority : string → _Update.input → result Z).
Context (encode_utf8 : text → string).



End overwrite.


(** At work: the GD update of [zpsm001], published at 1600000000, with
    an expiration of 30000 ms.  The service raises and the stored
    expiration time stays at 1600000060; the lines of [handle] that
    were not reached, run on the stored row, give 1600000030. *)
Example Update_expiration_time_sample :
  let s := server_with 1 sample_db no_pubsub in
  let row := sample_message 1 "zpsm001" (Qc_of_Z 1600000000) None in
  _Update.handle sample_datetime_from_ms sample_get_expiration
    sample_get_priority sample_encode_utf8 UpdateGD.class "cid" sample_update s
    = (Raise (TypeError "wrong number of positional arguments"), s)
  ∧ head (messages_by_id 1 "zpsm001" (odb s)) = Some row
  ∧ PubSubMessage.expiration_time row
    = Some (Qc_of_Z 1600000000 + Qc_of_Z 60)%Qc
  ∧ ∃ item',
      fst (_Update.overwrite sample_get_expiration sample_get_priority
             sample_encode_utf8 "cid" sample_update row
             (set_txn (Some (odb s)) s)) = Ok item'
      ∧ PubSubMessage.expiration_time item'
        = Some (Qc_of_Z 1600000000 + Qc_of_Z 30000 / Qc_of_Z 1000)%Qc.
Proof.
  cbv zeta. split; [reflexivity|]. split; [reflexivity|].
  split; [reflexivity|]. eexists. split; reflexivity.
Qed.

(** [len] and the slices count characters, not bytes: a payload of the
    two characters U+20AC and [a] has size 2, and with a prefix length
    of one its [data_prefix_short] is the three bytes of U+20AC. *)
Example overwrite_counts_characters :
  let s := server_with 1 sample_db
             {| heap := ∅; msg_id_to_msg := ∅; endpoints := ∅;
                data_prefix_len := 2; data_prefix_short_len := 1 |} in
  let i := _Update.Input 1 "zpsm001" "text/plain" [8364; 97]%N None
             None None None false in
  ∃ item',
    fst (_Update.overwrite sample_get_expiration sample_get_priority
           sample_encode_utf8 "cid" i
           (sample_message 1 "zpsm001" (Qc_of_Z 1600000000) None) s) = Ok item'
    ∧ PubSubMessage.size item' = 2
    ∧ String.length (PubSubMessage.data item') = 4%nat
    ∧ String.length (PubSubMessage.data_prefix_short item') = 3%nat.
Proof. cbv zeta. eexists. split; [reflexivity|]. by vm_compute. Qed.

(** ** The heap *)

Section keeps.
Context {S : Type} (P : S → Prop).

Lemma keeps_ret {A} (a : A) : keeps P (ret a).
Proof. by intros s. Qed.

Lemma keeps_raise {A} e : keeps P (@raise S A e).
Proof. by intros s. Qed.

Lemma keeps_gets {A} (f : S → A) : keeps P (gets f).
Proof. by intros s. Qed.

Lemma keeps_lift_result {A} (r : result A) : keeps P (lift_result r).
Proof. by intros s. Qed.

Lemma keeps_bind {A B} (m : M S A) (k : A → M S B) :
  keeps P m → (∀ a, keeps P (k a)) → keeps P (bind m k).
Proof.
  intros Hm Hk s Hs. unfold bind. specialize (Hm s Hs).
  destruct (m s) as [[a|e] s1]; simpl in *; [by apply Hk|done].
Qed.
End keeps.

Section frame.
Context (h0 : gmap nat pydict) (b0 : gmap string nat).

Lemma frame_set_heap ref (d : pydict) s :
  ref ∉ dom h0 → frame h0 b0 s →
  frame h0 b0 (set_pubsub (set_heap <[ref := d]>) s).
Proof.
  intros Href [Hb Hh]. split; [done|]. intros l Hl. simpl.
  rewrite lookup_insert_ne; [by apply Hh|]. by intros ->.
Qed.

Lemma keeps_deref ref : keeps (frame h0 b0) (deref ref).
Proof.
  apply keeps_bind; [apply keeps_gets|].
  intros [d|]; [apply keeps_ret|apply keeps_raise].
Qed.

Lemma keeps_getitem ref key : keeps (frame h0 b0) (getitem ref key).
Proof.
  apply keeps_bind; [apply keeps_deref|]. intros d.
  destruct (d !! key); [apply keeps_ret|apply keeps_raise].
Qed.

Lemma keeps_setitem ref key v :
  ref ∉ dom h0 → keeps (frame h0 b0) (setitem ref key v).
Proof.
  intros Href. apply keeps_bind; [apply keeps_deref|].
  intros d s Hs. by apply frame_set_heap.
Qed.

Lemma keeps_pop ref key :
  ref ∉ dom h0 → keeps (frame h0 b0) (pop ref key).
Proof.
  intros Href. apply keeps_bind; [apply keeps_deref|]. intros d.
  destruct (d !! key); [|apply keeps_raise].
  apply keeps_bind; [|intros; apply keeps_ret].
  intros s Hs. by apply frame_set_heap.
Qed.

Lemma keeps_pop_default ref key dflt :
  ref ∉ dom h0 → keeps (frame h0 b0) (pop_default ref key dflt).
Proof.
  intros Href. apply keeps_bind; [apply keeps_deref|]. intros d.
  destruct (d !! key); [|apply keeps_ret].
  apply keeps_bind; [|intros; apply keeps_ret].
  intros s Hs. by apply frame_set_heap.
Qed.

Lemma keeps_get_endpoint_by_id v :
  keeps (frame h0 b0) (get_endpoint_by_id v).
Proof.
  destruct v; try apply keeps_raise.
  apply keeps_bind; [apply keeps_gets|].
  intros [e|]; [apply keeps_ret|apply keeps_raise].
Qed.

Lemma keeps_get_message_by_id cid msg_id :
  keeps (frame h0 b0) (get_message_by_id cid msg_id).
Proof.
  apply keeps_bind; [apply keeps_gets|].
  intros [ref|]; [apply keeps_ret|apply keeps_raise].
Qed.

(** What runs on the copy keeps the frame, and the copy is new. *)
Lemma deepcopy_bind_frame {A} ref (k : nat → M Server A) s :
  heap (pubsub s) = h0 → msg_id_to_msg (pubsub s) = b0 →
  (∀ new, new ∉ dom h0 → keeps (frame h0 b0) (k new)) →
  frame h0 b0 (snd (bind (deepcopy ref) k s)).
Proof.
  intros Hh Hb Hk. unfold deepcopy, deref, bind, gets, modify, ret, raise.
  destruct (heap (pubsub s) !! ref) as [d|] eqn:Hd; simpl.
  - apply Hk; [rewrite <-Hh; apply is_fresh|].
    apply frame_set_heap; [rewrite <-Hh; apply is_fresh|].
    split; [done|]. intros l _. by rewrite Hh.
  - split; [done|]. intros l _. by rewrite Hh.
Qed.
End frame.

Create HintDb frame discriminated.
#[local] Hint Resolve keeps_ret keeps_raise keeps_gets keeps_lift_result
  keeps_deref keeps_getitem keeps_setitem keeps_pop keeps_pop_default
  keeps_get_endpoint_by_id : frame.

Ltac keeps_step :=
  lazymatch goal with
  | |- keeps _ (bind _ _) => apply keeps_bind; [|intros ?]
  | |- keeps _ (if ?b then _ else _) => destruct b
  | |- keeps _ _ => solve [eauto with frame]
  end.

(** ** [GetFromServerTopicNonGD] *)

Lemma GetFromServerTopicNonGD_frame (datetime_from_ms : Qc → string)
    (cid : string) (i : GetFromServerTopicNonGD.input) (s : Server) :
  frame (heap (pubsub s)) (msg_id_to_msg (pubsub s))
    (snd (GetFromServerTopicNonGD.handle datetime_from_ms cid i s)).
Proof.
  unfold GetFromServerTopicNonGD.handle.
  unfold bind at 1. unfold get_message_by_id at 1. unfold bind at 1, gets.
  destruct (msg_id_to_msg (pubsub s) !! _) as [ref|]; simpl; [|by split].
  apply deepcopy_bind_frame; [done..|].
  intros new Hnew. repeat keeps_step.
Qed.

(** C7: a non-GD get of a message of the backlog leaves the stored
    record as it was, field by field, and with it the backlog and every
    other dict of the process; what the service renames and converts is
    the copy. *)
Theorem GetFromServerTopicNonGD_keeps_record (datetime_from_ms : Qc → string)
    (cid : string) (i : GetFromServerTopicNonGD.input) (s : Server)
    (ref : nat) (d : pydict) :
  msg_id_to_msg (pubsub s) !! GetFromServerTopicNonGD.msg_id i = Some ref →
  heap (pubsub s) !! ref = Some d →
  let s' := snd (GetFromServerTopicNonGD.handle datetime_from_ms cid i s) in
  msg_id_to_msg (pubsub s') = msg_id_to_msg (pubsub s)
  ∧ heap (pubsub s') !! ref = Some d
  ∧ ∀ ref' d', heap (pubsub s) !! ref' = Some d' →
               heap (pubsub s') !! ref' = Some d'.
Proof.
  intros Hb Hd s'.
  destruct (GetFromServerTopicNonGD_frame datetime_from_ms cid i s) as [Hb' Hh].
  split; [done|].
  assert (∀ ref' d', heap (pubsub s) !! ref' = Some d' →
                     heap (pubsub s') !! ref' = Some d') as Hall.
  { intros ref' d' Hd'. unfold s'. rewrite Hh; [done|].
    apply elem_of_dom. by exists d'. }
  split; [by apply Hall|done].
Qed.

Section with_dict.
Context (ref : nat) (s : Server).

Lemma with_dict_twice (d1 d2 : pydict) :
  with_dict ref d2 (with_dict ref d1 s) = with_dict ref d2 s.
Proof.
  unfold with_dict, set_pubsub, set_heap. simpl.
  by rewrite insert_insert_eq.
Qed.

Lemma deref_at (d : pydict) :
  deref ref (with_dict ref d s) = (Ok d, with_dict ref d s).
Proof.
  unfold deref, bind, gets, ret. simpl. by rewrite lookup_insert_eq.
Qed.

Lemma setitem_at (d : pydict) key v :
  setitem ref key v (with_dict ref d s)
  = (Ok tt, with_dict ref (<[key := v]> d) s).
Proof.
  unfold setitem. rewrite (bind_Ok _ _ _ _ _ (deref_at d)).
  unfold modify. f_equal. apply with_dict_twice.
Qed.

Lemma getitem_at (d : pydict) key v :
  d !! key = Some v →
  getitem ref key (with_dict ref d s) = (Ok v, with_dict ref d s).
Proof.
  intros H. unfold getitem. rewrite (bind_Ok _ _ _ _ _ (deref_at d)).
  by rewrite H.
Qed.

Lemma pop_at (d : pydict) key v :
  d !! key = Some v →
  pop ref key (with_dict ref d s) = (Ok v, with_dict ref (delete key d) s).
Proof.
  intros H. unfold pop. rewrite (bind_Ok _ _ _ _ _ (deref_at d)).
  rewrite H. unfold bind, modify, ret. f_equal. apply with_dict_twice.
Qed.

Lemma pop_default_at (d : pydict) key dflt :
  pop_default ref key dflt (with_dict ref d s)
  = (Ok (default dflt (d !! key)), with_dict ref (delete key d) s).
Proof.
  unfold pop_default. rewrite (bind_Ok _ _ _ _ _ (deref_at d)).
  destruct (d !! key) as [v|] eqn:H; simpl.
  - unfold bind, modify, ret. f_equal. apply with_dict_twice.
  - unfold ret. by rewrite delete_id.
Qed.

Lemma get_endpoint_by_id_at (d : pydict) z e :
  endpoints (pubsub s) !! z = Some e →
  get_endpoint_by_id (VInt z) (with_dict ref d s)
  = (Ok e, with_dict ref d s).
Proof.
  intros H. unfold get_endpoint_by_id, bind, gets, ret. simpl. by rewrite H.
Qed.
End with_dict.

Lemma deepcopy_at ref (d : pydict) s :
  heap (pubsub s) !! ref = Some d →
  deepcopy ref s
  = (Ok (fresh (dom (heap (pubsub s)))),
     with_dict (fresh (dom (heap (pubsub s)))) d s).
Proof.
  intros H. unfold deepcopy, deref, bind, gets, modify, ret. by rewrite H.
Qed.

Lemma bind_lift_Ok {S A B} (a : A) (k : A → M S B) s :
  bind (lift_result (Ok a)) k s = k a s.
Proof. done. Qed.

Lemma bind_ret {S A B} (a : A) (k : A → M S B) s :
  bind (ret a) k s = k a s.
Proof. done. Qed.

(** A lookup in a dict built by assignments and removals. *)
Ltac dict_lookup :=
  repeat first
    [ rewrite lookup_insert_eq
    | rewrite lookup_insert_ne by done
    | rewrite lookup_delete_ne by done ];
  first [ reflexivity | eassumption ].

(** One statement of the handler, run on the copy. *)
Ltac run_step :=
  first
    [ rewrite bind_lift_Ok
    | rewrite bind_ret
    | erewrite bind_Ok;
      [| first [ apply setitem_at
               | apply pop_default_at
               | apply pop_at; dict_lookup
               | apply getitem_at; dict_lookup
               | apply get_endpoint_by_id_at; eassumption ] ] ].

(** C6: the non-GD get service raises [NotFound] for an ID the backlog
    does not hold; for a stored message with an ID, a numeric
    [pub_time] and a publisher the directory knows, it answers with the
    message under the public names: [msg_id] for [pub_msg_id],
    [correl_id] for [pub_correl_id], [endpoint_id] for
    [published_by_id] with the endpoint's name added, [pub_time] and a
    set [expiration_time] converted from seconds to the ISO form, and
    every other field as stored. *)
Theorem GetFromServerTopicNonGD_handle_spec (datetime_from_ms : Qc → string)
    (cid : string) (i : GetFromServerTopicNonGD.input) (s : Server) :
  match msg_id_to_msg (pubsub s) !! GetFromServerTopicNonGD.msg_id i with
  | None =>
      GetFromServerTopicNonGD.handle datetime_from_ms cid i s
      = (Raise (NotFound cid ("No such message `"
                              +:+ GetFromServerTopicNonGD.msg_id i +:+ "`")), s)
  | Some ref =>
      ∀ (d : pydict) (mid pt : pyval) (t : Qc) (eid : Z) (e : PubSubEndpoint.t),
        heap (pubsub s) !! ref = Some d →
        d !! "pub_msg_id" = Some mid →
        d !! "pub_time" = Some pt → as_number pt = Some t →
        d !! "published_by_id" = Some (VInt eid) →
        endpoints (pubsub s) !! eid = Some e →
        (∀ v, d !! "expiration_time" = Some v → truthy v = true →
              is_Some (as_number v)) →
        ∃ d' : pydict,
          fst (GetFromServerTopicNonGD.handle datetime_from_ms cid i s) = Ok d'
          ∧ d' !! "msg_id" = Some mid
          ∧ d' !! "pub_msg_id" = None
          ∧ d' !! "correl_id" = Some (default VNone (d !! "pub_correl_id"))
          ∧ d' !! "pub_correl_id" = None
          ∧ d' !! "pub_time" = Some (VStr (iso_of_seconds datetime_from_ms t))
          ∧ d' !! "expiration_time" =
              (v ← d !! "expiration_time";
               if truthy v
               then (λ q, VStr (iso_of_seconds datetime_from_ms q)) <$> as_number v
               else None)
          ∧ d' !! "endpoint_id" = Some (VInt eid)
          ∧ d' !! "published_by_id" = None
          ∧ d' !! "endpoint_name" = Some (VStr (PubSubEndpoint.name e))
          ∧ ∀ key, key ∉ reshaped_keys → d' !! key = d !! key
  end.
Proof.
  destruct (msg_id_to_msg (pubsub s) !! _) as [ref|] eqn:Hb.
  - intros d mid pt t eid e Hd Hmid Hpt Ht Heid He Het.
    assert (∀ key, key ∉ reshaped_keys →
      key ≠ "pub_msg_id" ∧ key ≠ "msg_id" ∧ key ≠ "pub_correl_id"
      ∧ key ≠ "correl_id" ∧ key ≠ "pub_time" ∧ key ≠ "expiration_time"
      ∧ key ≠ "published_by_id" ∧ key ≠ "endpoint_id"
      ∧ key ≠ "endpoint_name") as Hkeys.
    { intros key Hkey. unfold reshaped_keys in Hkey.
      rewrite !not_elem_of_cons in Hkey. tauto. }
    unfold GetFromServerTopicNonGD.handle.
    rewrite (bind_Ok _ _ s ref s)
      by (unfold get_message_by_id, bind, gets, ret; by rewrite Hb).
    rewrite (bind_Ok _ _ _ _ _ (deepcopy_at _ _ _ Hd)).
    do 5 run_step.
    unfold mul_float at 1. rewrite Ht.
    do 3 run_step.
    repeat first [ rewrite lookup_insert_ne by done
                 | rewrite lookup_delete_ne by done ].
    destruct (d !! "expiration_time") as [v|] eqn:Hv; simpl;
      [destruct (truthy v) eqn:Htr;
         [destruct (Het v eq_refl Htr) as [q Hq];
          unfold mul_float; rewrite Hq|]|];
      repeat run_step; rewrite deref_at; simpl;
      (eexists; split; [reflexivity|]);
      (repeat split; [by simplify_map_eq..|]);
      intros key Hkey; destruct (Hkeys key Hkey) as (?&?&?&?&?&?&?&?&?);
      by simplify_map_eq.
  - unfold GetFromServerTopicNonGD.handle, get_message_by_id, bind, gets, raise.
    by rewrite Hb.
Qed.

(** [GetFromServerTopicNonGD_handle_spec] at work: a get of [zpsm900]
    from the sample backlog. *)
Lemma GetFromServerTopicNonGD_handle_spec_witness :
  ∃ d' : pydict,
    fst (GetFromServerTopicNonGD.handle sample_datetime_from_ms "cid"
           (GetFromServerTopicNonGD.Input "zpsm900")
           (server_with 1 sample_db sample_pubsub)) = Ok d'
    ∧ d' !! "msg_id" = Some (VStr "zpsm900")
    ∧ d' !! "pub_msg_id" = None
    ∧ d' !! "correl_id" = Some (VStr "abc")
    ∧ d' !! "pub_correl_id" = None
    ∧ d' !! "pub_time"
      = Some (VStr (iso_of_seconds sample_datetime_from_ms (Qc_of_Z 1600000000)))
    ∧ d' !! "expiration_time"
      = Some (VStr (iso_of_seconds sample_datetime_from_ms (Qc_of_Z 1600000060)))
    ∧ d' !! "endpoint_id" = Some (VInt 3)
    ∧ d' !! "published_by_id" = None
    ∧ d' !! "endpoint_name" = Some (VStr "zato.demo")
    ∧ ∀ key, key ∉ reshaped_keys → d' !! key = sample_non_gd !! key.
Proof.
  pose proof (GetFromServerTopicNonGD_handle_spec sample_datetime_from_ms "cid"
                (GetFromServerTopicNonGD.Input "zpsm900")
                (server_with 1 sample_db sample_pubsub)) as H.
  assert (msg_id_to_msg (pubsub (server_with 1 sample_db sample_pubsub))
            !! "zpsm900" = Some 0%nat) as Hb by reflexivity.
  simpl in H. simpl in Hb. rewrite Hb in H.
  apply (H sample_non_gd (VStr "zpsm900") (VFloat (Qc_of_Z 1600000000))
           (Qc_of_Z 1600000000) 3 (PubSubEndpoint.Build "zato.demo"));
    try reflexivity.
  intros v [= <-] _. by eexists.
Defined.

(** [GetFromServerTopicNonGD_keeps_record] at work: after the get of
    [zpsm900] the backlog holds the record it held. *)
Lemma GetFromServerTopicNonGD_keeps_record_witness :
  let s := server_with 1 sample_db sample_pubsub in
  let s' := snd (GetFromServerTopicNonGD.handle sample_datetime_from_ms "cid"
                   (GetFromServerTopicNonGD.Input "zpsm900") s) in
  msg_id_to_msg (pubsub s') = msg_id_to_msg (pubsub s)
  ∧ heap (pubsub s') !! 0%nat = Some sample_non_gd
  ∧ ∀ ref' d', heap (pubsub s) !! ref' = Some d' →
               heap (pubsub s') !! ref' = Some d'.
Proof.
  apply (GetFromServerTopicNonGD_keeps_record sample_datetime_from_ms "cid"
           (GetFromServerTopicNonGD.Input "zpsm900")
           (server_with 1 sample_db sample_pubsub) 0%nat sample_non_gd);
    reflexivity.
Defined.

(** The copy is what protects the record: the same removal made
    through the backlog's own reference changes the stored dict. *)
Example pop_through_backlog_reference :
  let s := server_with 1 sample_db sample_pubsub in
  (heap (pubsub s) !! 0%nat ≫= lookup "pub_msg_id") = Some (VStr "zpsm900")
  ∧ (heap (pubsub (snd (pop 0%nat "pub_msg_id" s))) !! 0%nat
       ≫= lookup "pub_msg_id") = None.
Proof. split; vm_compute; reflexivity. Qed.

(** ** [DeleteNonGD] *)

(** The per-server delete does what the backlog's delete does: the ID
    is gone from the backlog afterwards, and the call fails only for an
    ID that was not there, under a policy that makes that an error. *)
Lemma DeleteNonGDMessage_handle_eq (on_missing : option exn)
    (i : DeleteNonGDMessage.input) (s : Server) :
  DeleteNonGDMessage.handle on_missing i s
  = (match msg_id_to_msg (pubsub s) !! DeleteNonGDMessage.msg_id i, on_missing with
     | None, Some e => Raise e
     | _, _ => Ok tt
     end,
     set_pubsub (set_msg_id_to_msg (delete (DeleteNonGDMessage.msg_id i))) s).
Proof.
  unfold DeleteNonGDMessage.handle, delete_msg_by_id, bind, gets.
  destruct (msg_id_to_msg (pubsub s) !! _) eqn:Hb, on_missing as [e|]; try done.
  unfold raise. f_equal. destruct s as [? ? ? [] ? ?]. simpl in *.
  unfold set_pubsub, set_msg_id_to_msg. simpl. by rewrite delete_id.
Qed.

(** Whether the delete of an ID the backlog does not hold returns or
    raises [NotFound] is the policy of the backlog, which the handlers
    pass on as it is: on the sample cluster the delete of an unknown ID
    returns under the one policy and raises under the other. *)
Example DeleteNonGD_missing_id_either_policy :
  let i := DeleteNonGD.Input 1 "server2" 200 "nope" in
  fst (DeleteNonGD.handle None i sample_cluster) = Ok tt
  ∧ fst (DeleteNonGD.handle (Some (NotFound "cid" "No such message `nope`")) i
           sample_cluster)
    = Raise (NotFound "cid" "No such message `nope`").
Proof. split; vm_compute; reflexivity. Qed.

(** A process that is not there is a failed dispatch, not [NotFound]. *)
Example DeleteNonGD_unknown_server (on_missing : option exn) :
  fst (DeleteNonGD.handle on_missing (DeleteNonGD.Input 1 "server9" 1 "zpsm900")
         sample_cluster)
  = Raise (CommunicationFailure "No such server `server9`").
Proof. vm_compute. reflexivity. Qed.

(** ** The client protocol *)

Lemma StronglySorted_reverse {A} (R : relation A) (l : list A) :
  StronglySorted R l → StronglySorted (flip R) (reverse l).
Proof.
  induction l as [|x l IH]; intros Hl; [constructor|].
  apply StronglySorted_cons in Hl as [Hx Hl].
  rewrite reverse_cons. apply StronglySorted_app. split; [|split].
  - intros y z Hy ->%list_elem_of_singleton.
    rewrite Forall_forall in Hx. apply Hx. by apply elem_of_reverse.
  - by apply IH.
  - repeat constructor.
Qed.

Section protocol.
Context (MSG_ID prefix_sk : string).

Lemma messages_of_publish topic data s :
  PubAPI.messages_of (snd (PubAPI.publish MSG_ID topic data s)) topic
  = PubAPI.messages_of s topic
    ++ [PubAPI.Message (MSG_ID +:+ pretty (PubAPI.next_msg s)) data
          (PubAPI.next_msg s)].
Proof. unfold PubAPI.messages_of at 1. simpl. by rewrite lookup_insert_eq. Qed.

Lemma wf_publish topic data s :
  PubAPI.wf s → PubAPI.wf (snd (PubAPI.publish MSG_ID topic data s)).
Proof.
  intros Hwf t msgs. simpl.
  destruct (decide (topic = t)) as [<-|Hne].
  - rewrite lookup_insert_eq. intros [= <-].
    assert (StronglySorted lt (PubAPI.pub_time <$> PubAPI.messages_of s topic)
            ∧ Forall (λ m, PubAPI.pub_time m < PubAPI.next_msg s)%nat
                (PubAPI.messages_of s topic)) as [Hs Hb].
    { unfold PubAPI.messages_of.
      destruct (PubAPI.topic_messages s !! topic) as [l|] eqn:Hl; simpl.
      - exact (Hwf _ _ Hl).
      - split; constructor. }
    split.
    + rewrite fmap_app. apply StronglySorted_app. split; [|split].
      * intros x y Hx ->%list_elem_of_singleton.
        apply list_elem_of_fmap in Hx as (m & -> & Hm).
        rewrite Forall_forall in Hb. by apply Hb.
      * done.
      * repeat constructor.
    + apply Forall_app. split.
      * eapply Forall_impl; [exact Hb|]. simpl. lia.
      * repeat constructor.
  - rewrite lookup_insert_ne by done. intros Hl.
    destruct (Hwf t msgs Hl) as [Hs Hb]. split; [done|].
    eapply Forall_impl; [exact Hb|]. simpl. lia.
Qed.

Lemma wf_publish_all topic payloads s :
  PubAPI.wf s → PubAPI.wf (PubAPI.publish_all MSG_ID topic payloads s).
Proof.
  revert s. induction payloads as [|p ps IH]; intros s Hwf; [done|].
  simpl. apply IH. by apply wf_publish.
Qed.

Lemma subs_publish_all topic payloads s :
  PubAPI.subs (PubAPI.publish_all MSG_ID topic payloads s) = PubAPI.subs s.
Proof.
  revert s. induction payloads as [|p ps IH]; intros s; [done|].
  simpl. by rewrite IH.
Qed.

(** Publications add their messages, in their order, at the end. *)
Lemma messages_of_publish_all topic payloads s :
  ∃ new,
    PubAPI.messages_of (PubAPI.publish_all MSG_ID topic payloads s) topic
    = PubAPI.messages_of s topic ++ new
    ∧ PubAPI.data <$> new = payloads
    ∧ PubAPI.pub_time <$> new = seq (PubAPI.next_msg s) (length payloads).
Proof.
  revert s. induction payloads as [|p ps IH]; intros s.
  - exists []. by rewrite app_nil_r.
  - destruct (IH (snd (PubAPI.publish MSG_ID topic p s)))
      as (new & Hmsgs & Hdata & Htime).
    eexists (_ :: new). split; [|split].
    + change (PubAPI.publish_all MSG_ID topic (p :: ps) s)
        with (PubAPI.publish_all MSG_ID topic ps
                (snd (PubAPI.publish MSG_ID topic p s))).
      rewrite Hmsgs, messages_of_publish, <-app_assoc. reflexivity.
    + by rewrite fmap_cons, Hdata.
    + by rewrite fmap_cons, Htime.
Qed.

Lemma wf_subscribe credential topic s :
  PubAPI.wf s → PubAPI.wf (snd (PubAPI.subscribe prefix_sk credential topic s)).
Proof.
  intros Hwf. unfold PubAPI.subscribe.
  by destruct (PubAPI.subs s !! _).
Qed.

Lemma wf_unsubscribe credential topic s :
  PubAPI.wf s → PubAPI.wf (snd (PubAPI.unsubscribe credential topic s)).
Proof. done. Qed.

Lemma wf_receive credential topic s :
  PubAPI.wf s → PubAPI.wf (snd (PubAPI.receive credential topic s)).
Proof.
  intros Hwf. unfold PubAPI.receive.
  by destruct (PubAPI.subs s !! _).
Qed.

Lemma wf_initial : PubAPI.wf PubAPI.initial.
Proof. intros t msgs Hl. simpl in Hl. by rewrite lookup_empty in Hl. Qed.
End protocol.

Section receive.
Context (MSG_ID prefix_sk : string).

Lemma wf_messages_of topic s :
  PubAPI.wf s →
  StronglySorted lt (PubAPI.pub_time <$> PubAPI.messages_of s topic).
Proof.
  intros Hwf. unfold PubAPI.messages_of.
  destruct (PubAPI.topic_messages s !! topic) as [l|] eqn:Hl; simpl.
  - by destruct (Hwf _ _ Hl).
  - constructor.
Qed.

Lemma entry_of_pub_time s topic sub_key (l : list PubAPI.message) :
  PubAPI.e_pub_time <$> (PubAPI.entry_of s topic sub_key <$> l)
  = PubAPI.pub_time <$> l.
Proof. rewrite <-list_fmap_compose. by apply list_fmap_ext. Qed.

Lemma entry_of_data s topic sub_key (l : list PubAPI.message) :
  PubAPI.e_data <$> (PubAPI.entry_of s topic sub_key <$> l)
  = PubAPI.data <$> l.
Proof. rewrite <-list_fmap_compose. by apply list_fmap_ext. Qed.

(** What [receive] answers a subscriber with. *)
Lemma receive_subscribed credential topic sub_key s :
  PubAPI.subs s !! (credential, topic) = Some sub_key →
  fst (PubAPI.receive credential topic s)
  = Ok (PubAPI.ReceiveResponse
          (PubAPI.entry_of s topic sub_key
             <$> reverse (PubAPI.messages_of s topic))).
Proof. intros H. unfold PubAPI.receive. by rewrite H. Qed.

(** C8: a subscriber who receives gets the queued messages in
    descending order of publication, and after any publications to its
    topic the most recently published message comes first: the first
    entry carries the payload of the last publication and is newer than
    every other entry of the batch. *)
Theorem receive_newest_first (credential topic sub_key : string)
    (s : PubAPI.state) (earlier : list string) (last : string) :
  PubAPI.wf s →
  PubAPI.subs s !! (credential, topic) = Some sub_key →
  (∃ queued : list PubAPI.entry,
     fst (PubAPI.receive credential topic s)
       = Ok (PubAPI.ReceiveResponse queued)
     ∧ StronglySorted gt (PubAPI.e_pub_time <$> queued))
  ∧ ∃ (e : PubAPI.entry) (es : list PubAPI.entry),
      fst (PubAPI.receive credential topic
             (PubAPI.publish_all MSG_ID topic (earlier ++ [last]) s))
        = Ok (PubAPI.ReceiveResponse (e :: es))
      ∧ PubAPI.e_data e = last
      ∧ PubAPI.e_pub_time e = (PubAPI.next_msg s + length earlier)%nat
      ∧ Forall (λ x, (PubAPI.e_pub_time x < PubAPI.e_pub_time e)%nat) es
      ∧ StronglySorted gt (PubAPI.e_pub_time <$> e :: es)
      ∧ PubAPI.e_data <$> e :: es
        = reverse ((PubAPI.data <$> PubAPI.messages_of s topic)
                   ++ earlier ++ [last]).
Proof.
  intros Hwf Hsub. split.
  { eexists. split; [by apply receive_subscribed|].
    rewrite entry_of_pub_time, fmap_reverse.
    apply (StronglySorted_reverse lt), wf_messages_of, Hwf. }
  set (s1 := PubAPI.publish_all MSG_ID topic (earlier ++ [last]) s).
  assert (PubAPI.subs s1 !! (credential, topic) = Some sub_key) as Hsub1
    by (unfold s1; by rewrite subs_publish_all).
  pose proof (wf_messages_of topic s1 (wf_publish_all MSG_ID _ _ _ Hwf))
    as Hsorted.
  destruct (messages_of_publish_all MSG_ID topic (earlier ++ [last]) s)
    as (new & Hmsgs & Hdata & Htime). fold s1 in Hmsgs.
  apply fmap_app_inv in Hdata as (new1 & new2 & Hd1 & Hd2 & ->).
  destruct new2 as [|m [|??]]; try discriminate Hd2.
  injection Hd2 as Hm.
  rewrite length_app, Nat.add_1_r, seq_S, fmap_app in Htime.
  apply app_inj_tail in Htime as [_ Htm]. simpl in Htm.
  rewrite (receive_subscribed _ _ _ _ Hsub1).
  rewrite Hmsgs, app_assoc, reverse_snoc, fmap_cons in *.
  eexists _, _. split; [reflexivity|].
  assert (StronglySorted gt
            (PubAPI.e_pub_time <$>
               PubAPI.entry_of s1 topic sub_key m
               :: (PubAPI.entry_of s1 topic sub_key
                     <$> reverse (PubAPI.messages_of s topic ++ new1))))
    as Hdesc.
  { rewrite <-fmap_cons, entry_of_pub_time, <-reverse_snoc, fmap_reverse.
    rewrite <-app_assoc. rewrite <-app_assoc in Hsorted.
    by apply (StronglySorted_reverse lt). }
  split; [done|]. split; [exact Htm|].
  split.
  { rewrite fmap_cons in Hdesc.
    apply StronglySorted_cons in Hdesc as [Hall _].
    rewrite Forall_fmap in Hall.
    eapply Forall_impl; [exact Hall|]. intros x Hx. exact Hx. }
  split; [done|].
  rewrite <-fmap_cons, entry_of_data, <-reverse_snoc, fmap_reverse.
  by rewrite fmap_app, fmap_app, <-app_assoc, Hd1, Hm.
Qed.
End receive.

(** [receive_newest_first] at work: three publications to the demo
    topic, then a receive. *)
Lemma receive_newest_first_witness :
  (∃ queued : list PubAPI.entry,
     fst (PubAPI.receive PubAPITestCase.username PubAPITestCase.topic_name
            sample_subscribed)
       = Ok (PubAPI.ReceiveResponse queued)
     ∧ StronglySorted gt (PubAPI.e_pub_time <$> queued))
  ∧ ∃ (e : PubAPI.entry) (es : list PubAPI.entry),
      fst (PubAPI.receive PubAPITestCase.username PubAPITestCase.topic_name
             (PubAPI.publish_all "zpsm" PubAPITestCase.topic_name
                (["one"; "two"] ++ ["three"]) sample_subscribed))
        = Ok (PubAPI.ReceiveResponse (e :: es))
      ∧ PubAPI.e_data e = "three"
      ∧ PubAPI.e_pub_time e
        = (PubAPI.next_msg sample_subscribed + length ["one"; "two"])%nat
      ∧ Forall (λ x, (PubAPI.e_pub_time x < PubAPI.e_pub_time e)%nat) es
      ∧ StronglySorted gt (PubAPI.e_pub_time <$> e :: es)
      ∧ PubAPI.e_data <$> e :: es
        = reverse ((PubAPI.data <$> PubAPI.messages_of sample_subscribed
                                      PubAPITestCase.topic_name)
                   ++ ["one"; "two"] ++ ["three"]).
Proof.
  apply (receive_newest_first "zpsm" PubAPITestCase.username
           PubAPITestCase.topic_name "zpsk0" sample_subscribed
           ["one"; "two"] "three").
  - apply wf_subscribe, wf_initial.
  - reflexivity.
Defined.

Example receive_three :
  PubAPI.e_data <$>
    match fst (PubAPI.receive PubAPITestCase.username PubAPITestCase.topic_name
                 (PubAPI.publish_all "zpsm" PubAPITestCase.topic_name
                    ["one"; "two"; "three"] sample_subscribed)) with
    | Ok (PubAPI.ReceiveResponse entries) => entries
    | _ => []
    end
  = ["three"; "two"; "one"].
Proof. vm_compute. reflexivity. Qed.

(** C9: for every credential and topic, two unsubscribes in a row both
    answer with the empty result and the second changes nothing; two
    subscribes in a row both succeed, the second answers with the empty
    result and changes nothing, so the pair has the one subscription
    the first call left; and a subscribe of a subscribed pair answers
    with the empty result and changes nothing. *)
Theorem subscribe_unsubscribe_idempotent (prefix_sk credential topic : string)
    (s : PubAPI.state) :
  (let '(r1, s1) := PubAPI.unsubscribe credential topic s in
   let '(r2, s2) := PubAPI.unsubscribe credential topic s1 in
   r1 = Ok PubAPI.Empty ∧ r2 = Ok PubAPI.Empty ∧ s2 = s1
   ∧ PubAPI.subs s1 !! (credential, topic) = None)
  ∧ (let '(r1, s1) := PubAPI.subscribe prefix_sk credential topic s in
     let '(r2, s2) := PubAPI.subscribe prefix_sk credential topic s1 in
     (∃ r, r1 = Ok r) ∧ r2 = Ok PubAPI.Empty ∧ s2 = s1
     ∧ is_Some (PubAPI.subs s1 !! (credential, topic)))
  ∧ (∀ sub_key, PubAPI.subs s !! (credential, topic) = Some sub_key →
       PubAPI.subscribe prefix_sk credential topic s = (Ok PubAPI.Empty, s)).
Proof.
  split; [|split].
  - unfold PubAPI.unsubscribe. simpl.
    rewrite delete_delete_eq, lookup_delete_eq. done.
  - unfold PubAPI.subscribe.
    destruct (PubAPI.subs s !! (credential, topic)) as [k|] eqn:Hk.
    + rewrite Hk. eauto.
    + simpl. rewrite lookup_insert_eq. eauto.
  - intros k Hk. unfold PubAPI.subscribe. by rewrite Hk.
Qed.

(** A subscribe or unsubscribe of one pair leaves every other pair's
    subscription alone. *)
Lemma subscribe_unsubscribe_other (prefix_sk credential topic : string)
    (other : string * string) (s : PubAPI.state) :
  other ≠ (credential, topic) →
  PubAPI.subs (snd (PubAPI.subscribe prefix_sk credential topic s)) !! other
    = PubAPI.subs s !! other
  ∧ PubAPI.subs (snd (PubAPI.unsubscribe credential topic s)) !! other
    = PubAPI.subs s !! other.
Proof.
  intros Hne. split.
  - unfold PubAPI.subscribe. destruct (PubAPI.subs s !! _); [done|].
    simpl. by rewrite lookup_insert_ne.
  - simpl. by rewrite lookup_delete_ne.
Qed.

(** ** The test, run *)

Section test.
Context (MSG_ID prefix_sk : string).

Lemma prefix_append (p x : string) : String.prefix p (p +:+ x) = true.
Proof.
  induction p as [|a p IH]; [by destruct x|].
  simpl. by destruct (Ascii.ascii_dec a a).
Qed.

(** [xtest_self_unsubscribe] passes, whatever state it starts in. *)
Lemma xtest_self_unsubscribe_passes (s : PubAPI.state) :
  fst (PubAPITestCase.xtest_self_unsubscribe s) = Ok tt.
Proof. done. Qed.

(** [xtest_self_subscribe] passes, whatever state it starts in. *)
Lemma xtest_self_subscribe_passes (s : PubAPI.state) :
  fst (PubAPITestCase.xtest_self_subscribe prefix_sk s) = Ok tt.
Proof.
  unfold PubAPITestCase.xtest_self_subscribe, PubAPITestCase._unsubscribe,
    PubAPI.unsubscribe, PubAPI.subscribe, bind, ret. simpl.
  rewrite lookup_delete_eq. simpl. rewrite prefix_append. simpl.
  by rewrite lookup_insert_eq.
Qed.
End test.

(** [FullPathTester.run] passes in both orders, first on a fresh server
    and then with the messages the earlier run left over. *)
Example FullPathTester_run_passes :
  let run b data := PubAPITestCase.FullPathTester_run "zpsm" "zpsk" b data in
  fst (run true "2022-05-01" PubAPI.initial) = Ok tt
  ∧ fst (run false "2022-05-02" PubAPI.initial) = Ok tt
  ∧ fst (run false "2022-05-04"
           (snd (run true "2022-05-03" PubAPI.initial))) = Ok tt
  ∧ fst (run true "2022-05-06"
           (snd (run false "2022-05-05" sample_subscribed))) = Ok tt.
Proof. vm_compute. done. Qed.

(** * Further properties of the services *)

(** ** [Delete], whatever the database *)

(** The four ways a delete ends. *)
Lemma Delete_handle_eq (cid : string) (i : Delete.input) (s : Server) :
  Delete.handle cid i s =
    match head (messages_by_id (Delete.cluster_id i) (Delete.msg_id i) (odb s)) with
    | None =>
        (Raise (NotFound cid ("Message not found `" +:+ Delete.msg_id i +:+ "`")),
         set_txn None s)
    | Some m =>
        match topics_by_id (Delete.cluster_id i) (PubSubMessage.topic_id m) (odb s) with
        | [] => (Raise NoResultFound, set_txn None s)
        | [t] =>
            (Ok tt,
             emit (LogInfo ("Deleted GD message `" +:+ Delete.msg_id i +:+ "`"))
               (set_txn None
                  (emit (LockReleased ("zato.pubsub.publish." +:+ PubSubTopic.name t))
                     (emit Committed
                        (set_odb (λ _, delete_cascade m (odb s))
                           (emit (LockAcquired
                                    ("zato.pubsub.publish." +:+ PubSubTopic.name t))
                              s))))))
        | _ :: _ :: _ => (Raise MultipleResultsFound, set_txn None s)
        end
    end.
Proof.
  unfold Delete.handle. py_run.
  destruct (head _) as [m|]; py_run; [|done].
  destruct (topics_by_id _ _ _) as [|t [|t' ts]]; py_run; done.
Qed.

(** X1: a GD delete is all or nothing.  Either it returns, and then the
    database is the old one without the found message and its queue
    entries and the trace grew by lock, commit, unlock and one log
    line; or it raises [NotFound] (no such message), [NoResultFound] or
    [MultipleResultsFound] (the message's topic is not exactly one row
    of the request's cluster), and then the database and the trace are
    untouched, so no lock was taken.  The session is closed either
    way. *)
Theorem Delete_all_or_nothing (cid : string) (i : Delete.input) (s : Server) :
  let '(r, s') := Delete.handle cid i s in
  txn s' = None
  ∧ pubsub s' = pubsub s
  ∧ match r with
    | Ok _ =>
        ∃ m t,
          head (messages_by_id (Delete.cluster_id i) (Delete.msg_id i) (odb s))
            = Some m
          ∧ topics_by_id (Delete.cluster_id i) (PubSubMessage.topic_id m) (odb s)
            = [t]
          ∧ odb s' = delete_cascade m (odb s)
          ∧ trace s' = trace s ++
              [LockAcquired ("zato.pubsub.publish." +:+ PubSubTopic.name t);
               Committed;
               LockReleased ("zato.pubsub.publish." +:+ PubSubTopic.name t);
               LogInfo ("Deleted GD message `" +:+ Delete.msg_id i +:+ "`")]
    | Raise e =>
        odb s' = odb s ∧ trace s' = trace s
        ∧ (e = NotFound cid ("Message not found `" +:+ Delete.msg_id i +:+ "`")
           ∧ messages_by_id (Delete.cluster_id i) (Delete.msg_id i) (odb s) = []
           ∨ (e = NoResultFound ∨ e = MultipleResultsFound)
             ∧ messages_by_id (Delete.cluster_id i) (Delete.msg_id i) (odb s) ≠ [])
    end.
Proof.
  rewrite Delete_handle_eq.
  destruct (head _) as [m|] eqn:Hhead.
  - assert (messages_by_id (Delete.cluster_id i) (Delete.msg_id i) (odb s) ≠ [])
      as Hne by (intros Hnil; by rewrite Hnil in Hhead).
    destruct (topics_by_id _ _ _) as [|t [|t' ts]] eqn:Htop.
    + repeat split; auto.
    + split; [done|]. split; [done|]. exists m, t.
      split; [done|]. split; [done|]. split; [done|].
      cbn [trace emit set_txn set_odb]. by rewrite <-!app_assoc.
    + repeat split; auto.
  - apply head_None in Hhead. repeat split; auto.
Qed.

(** X2: once a message is deleted, a second delete of the same ID
    raises [NotFound] and changes nothing more, and [Has], asked on a
    server of that cluster, answers [found=false]. *)
Theorem Delete_then_gone (cid cid' : string) (i : Delete.input)
    (any_cluster : Z) (s : Server) :
  msg_id_unique (odb s) →
  fst (Delete.handle cid i s) = Ok tt →
  let s' := snd (Delete.handle cid i s) in
  Delete.handle cid' i s'
    = (Raise (NotFound cid' ("Message not found `" +:+ Delete.msg_id i +:+ "`")), s')
  ∧ (server_cluster_id s = Delete.cluster_id i →
     fst (Has.handle (Has.Input any_cluster (Delete.msg_id i)) s')
       = Ok (Has.Payload false)).
Proof.
  intros Hu Hok s'.
  pose proof (Delete_handle_eq cid i s) as Heq.
  destruct (head _) as [m|] eqn:Hhead; [|by rewrite Heq in Hok].
  destruct (head_messages_by_id _ _ _ _ Hhead) as (Hm & Hc & Hi).
  destruct (topics_by_id _ _ _) as [|t [|t' ts]] eqn:Htop;
    try (by rewrite Heq in Hok).
  assert (odb s' = delete_cascade m (odb s)
          ∧ server_cluster_id s' = server_cluster_id s) as [Hdb Hcl'].
  { unfold s'. by rewrite Heq. }
  pose proof (messages_by_id_deleted _ _ _ _ Hu Hm Hc Hi) as Hgone.
  split.
  - rewrite Delete_handle_eq, Hdb, Hgone. cbn [head]. f_equal.
    unfold s'. by rewrite Heq.
  - intros Hcl. rewrite Has_handle_eq. cbn [fst Has.msg_id].
    do 2 f_equal. apply bool_decide_eq_false.
    intros (x & Hx & Hxc & Hxi)%Exists_exists.
    assert (x ∈ messages_by_id (Delete.cluster_id i) (Delete.msg_id i)
                  (delete_cascade m (odb s))) as Hin.
    { apply list_elem_of_filter. rewrite <-Hdb. split; [|done].
      split; congruence. }
    rewrite Hgone in Hin. by apply elem_of_nil in Hin.
Qed.

(** [Delete_then_gone] at work on the sample database. *)
Lemma Delete_then_gone_witness :
  let s' := snd (Delete.handle "cid" (Delete.Input 1 "zpsm001")
                   (server_with 1 sample_db no_pubsub)) in
  Delete.handle "cid2" (Delete.Input 1 "zpsm001") s'
    = (Raise (NotFound "cid2" "Message not found `zpsm001`"), s')
  ∧ fst (Has.handle (Has.Input 5 "zpsm001") s') = Ok (Has.Payload false).
Proof.
  assert (msg_id_unique sample_db) as Hu by apply sample_db_integrity.
  destruct (Delete_then_gone "cid" "cid2" (Delete.Input 1 "zpsm001") 5
              (server_with 1 sample_db no_pubsub) Hu eq_refl) as [H1 H2].
  split; [exact H1|exact (H2 eq_refl)].
Defined.

(** ** [Has] and the get services *)

(** X3: [Has] never raises and writes nothing; it answers [found=true]
    exactly when the database holds a message with the requested ID in
    the cluster of the server that runs the service. *)
Theorem Has_found_iff (i : Has.input) (s : Server) :
  ∃ found : bool,
    Has.handle i s = (Ok (Has.Payload found), set_txn None s)
    ∧ (found = true ↔
       ∃ m : Message, m ∈ messages (odb s)
         ∧ PubSubMessage.cluster_id m = server_cluster_id s
         ∧ PubSubMessage.pub_msg_id m = Has.msg_id i).
Proof.
  eexists. split; [apply Has_handle_eq|].
  rewrite bool_decide_eq_true, Exists_exists. naive_solver.
Qed.

(** The two ways a GD get ends. *)
Lemma GetFromTopicGD_handle_cases (datetime_from_ms : Qc → string)
    (cid : string) (i : GetFromTopicGD.input) (s : Server) :
  match head (messages_by_id (GetFromTopicGD.cluster_id i)
                (GetFromTopicGD.msg_id i) (odb s)) with
  | Some m =>
      ∃ view, GetFromTopicGD.handle datetime_from_ms cid i s
              = (Ok view, set_txn None s)
  | None =>
      GetFromTopicGD.handle datetime_from_ms cid i s
      = (Raise (NotFound cid ("No such message `" +:+ GetFromTopicGD.msg_id i +:+ "`")),
         set_txn None s)
  end.
Proof.
  unfold GetFromTopicGD.handle. py_run.
  destruct (head _) as [m|]; py_run; eauto.
Qed.

(** X4: asked about the server's own cluster, [Has] and the GD get
    agree: [Has] answers [found=true] exactly when the get returns a
    message, and [found=false] exactly when the get raises [NotFound]. *)
Theorem Has_agrees_with_get (datetime_from_ms : Qc → string)
    (cid : string) (cluster_id : Z) (msg_id : string) (s : Server) :
  cluster_id = server_cluster_id s →
  (fst (Has.handle (Has.Input cluster_id msg_id) s) = Ok (Has.Payload true)
   ↔ ∃ view, fst (GetFromTopicGD.handle datetime_from_ms cid
                    (GetFromTopicGD.Input msg_id cluster_id) s) = Ok view)
  ∧ (fst (Has.handle (Has.Input cluster_id msg_id) s) = Ok (Has.Payload false)
     ↔ raises_NotFound (fst (GetFromTopicGD.handle datetime_from_ms cid
                               (GetFromTopicGD.Input msg_id cluster_id) s)) = true).
Proof.
  intros ->. rewrite Has_handle_eq. cbn [fst Has.msg_id].
  pose proof (GetFromTopicGD_handle_cases datetime_from_ms cid
                (GetFromTopicGD.Input msg_id (server_cluster_id s)) s) as Hget.
  cbn [GetFromTopicGD.cluster_id GetFromTopicGD.msg_id] in Hget.
  destruct (head _) as [m|] eqn:Hhead.
  - destruct Hget as [view ->]. cbn [fst raises_NotFound].
    apply head_messages_by_id in Hhead as (Hm & Hc & Hi).
    rewrite bool_decide_eq_true_2.
    + split; split; eauto; discriminate.
    + apply Exists_exists. eauto.
  - rewrite Hget. cbn [fst raises_NotFound is_NotFound].
    apply head_None in Hhead.
    rewrite bool_decide_eq_false_2.
    + split; split; try done; try discriminate. by intros [? ?].
    + intros (x & Hx & Hxc & Hxi)%Exists_exists.
      assert (x ∈ messages_by_id (server_cluster_id s) msg_id (odb s)) as Hin
        by (apply list_elem_of_filter; done).
      rewrite Hhead in Hin. by apply elem_of_nil in Hin.
Qed.

(** [Has_agrees_with_get] at work on the sample database. *)
Lemma Has_agrees_with_get_witness :
  (fst (Has.handle (Has.Input 1 "zpsm002") (server_with 1 sample_db no_pubsub))
     = Ok (Has.Payload true)
   ↔ ∃ view, fst (GetFromTopicGD.handle sample_datetime_from_ms "cid"
                    (GetFromTopicGD.Input "zpsm002" 1)
                    (server_with 1 sample_db no_pubsub)) = Ok view)
  ∧ (fst (Has.handle (Has.Input 1 "zpsm002") (server_with 1 sample_db no_pubsub))
       = Ok (Has.Payload false)
     ↔ raises_NotFound (fst (GetFromTopicGD.handle sample_datetime_from_ms "cid"
                               (GetFromTopicGD.Input "zpsm002" 1)
                               (server_with 1 sample_db no_pubsub))) = true).
Proof.
  apply (Has_agrees_with_get sample_datetime_from_ms "cid" 1 "zpsm002"
           (server_with 1 sample_db no_pubsub)).
  reflexivity.
Defined.

(** ** [GetFromQueue] *)

Section GetFromQueue.
Context (datetime_from_ms : Qc → string).

Lemma convert_lookup (item : pydict) (name : string) :
  (∀ v, item !! name = Some v → truthy v = true → is_Some (as_number v)) →
  ∃ item', GetFromQueue.convert datetime_from_ms item name = Ok item'
    ∧ item' !! name = queue_time datetime_from_ms (item !! name)
    ∧ ∀ other, other ≠ name → item' !! other = item !! other.
Proof.
  intros Hnum. unfold GetFromQueue.convert, GetFromQueue.to_datetime, queue_time.
  destruct (item !! name) as [v|] eqn:Hv; simpl.
  - destruct (truthy v) eqn:Htr.
    + destruct (Hnum v eq_refl Htr) as [ms ->]. eexists. split; [done|].
      split; [by rewrite lookup_insert_eq|].
      intros other Hne. by rewrite lookup_insert_ne.
    + exists item. by rewrite Hv.
  - exists item. by rewrite Hv.
Qed.

Lemma convert_all_lookup (names : list string) (item : pydict) :
  NoDup names →
  (∀ name v, name ∈ names → item !! name = Some v → truthy v = true →
             is_Some (as_number v)) →
  ∃ item', GetFromQueue.convert_all datetime_from_ms names item = Ok item'
    ∧ (∀ name, name ∈ names →
               item' !! name = queue_time datetime_from_ms (item !! name))
    ∧ ∀ name, name ∉ names → item' !! name = item !! name.
Proof.
  revert item. induction names as [|name names IH]; intros item Hnd Hnum.
  - exists item. split; [done|]. split; [|done].
    intros name Hin. by apply elem_of_nil in Hin.
  - apply NoDup_cons in Hnd as [Hnotin Hnd].
    destruct (convert_lookup item name) as (item1 & Hc & Hname & Hother).
    { intros v. apply Hnum. left. }
    assert (∀ other, other ∈ names → item1 !! other = item !! other) as Hsame.
    { intros other Hin. apply Hother. by intros ->. }
    destruct (IH item1 Hnd) as (item' & Hall & Hin & Hout).
    { intros other v Ho. rewrite (Hsame other Ho). apply Hnum. by right. }
    exists item'. simpl. rewrite Hc. split; [done|]. split.
    + intros other [->|Ho]%elem_of_cons.
      * by rewrite (Hout _ Hnotin).
      * by rewrite (Hin _ Ho), (Hsame _ Ho).
    + intros other [Hne Ho]%not_elem_of_cons.
      rewrite (Hout _ Ho). by apply Hother.
Qed.

(** X5: [GetFromQueue] raises [NotFound] when the query finds no row.
    For a found row whose time attributes hold numbers or nothing it
    answers with the row in which an expiration of zero has become
    [None], every set time attribute ([expiration_time], [recv_time],
    [ext_pub_time], [last_delivery_time]) is the string
    [datetime_from_ms] makes of the stored value as it is (not
    multiplied by 1000, unlike the GD get), an unset one is as stored,
    and every other attribute is untouched.  Nothing is written. *)
Theorem GetFromQueue_handle_spec
    (pubsub_queue_message : Z → string → Database → list pydict)
    (cid : string) (i : GetFromQueue.input) (s : Server) :
  match head (pubsub_queue_message (GetFromQueue.cluster_id i)
                (GetFromQueue.msg_id i) (odb s)) with
  | None =>
      GetFromQueue.handle datetime_from_ms pubsub_queue_message cid i s
      = (Raise (NotFound cid ("No such message `" +:+ GetFromQueue.msg_id i +:+ "`")),
         set_txn None s)
  | Some item =>
      ∀ expiration,
        item !! "expiration" = Some expiration →
        times_numeric item →
        ∃ item' : pydict,
          GetFromQueue.handle datetime_from_ms pubsub_queue_message cid i s
            = (Ok item', set_txn None s)
          ∧ item' !! "expiration"
            = Some (if truthy expiration then expiration else VNone)
          ∧ (∀ name, name ∈ GetFromQueue.time_names →
               item' !! name = queue_time datetime_from_ms (item !! name))
          ∧ ∀ name, name ≠ "expiration" → name ∉ GetFromQueue.time_names →
              item' !! name = item !! name
  end.
Proof.
  unfold GetFromQueue.handle. py_run.
  destruct (head _) as [item|]; py_run; [|done].
  intros expiration Hexp Hnum. unfold getattr. rewrite Hexp. py_run.
  assert (∀ name, name ∈ GetFromQueue.time_names → name ≠ "expiration") as Hne.
  { intros name Hin ->. unfold GetFromQueue.time_names in Hin.
    repeat (apply elem_of_cons in Hin as [Hin|Hin]; [discriminate Hin|]).
    by apply elem_of_nil in Hin. }
  destruct (convert_all_lookup GetFromQueue.time_names
              (<["expiration" := or_None expiration]> item))
    as (item' & -> & Hin & Hout).
  { unfold GetFromQueue.time_names.
    repeat (apply NoDup_cons; split;
            [rewrite ?not_elem_of_cons; repeat split;
             first [discriminate | apply not_elem_of_nil]|]).
    apply NoDup_nil_2. }
  { intros name v Hname. rewrite lookup_insert_ne by (symmetry; by apply Hne).
    by apply Hnum. }
  exists item'. split; [done|]. split; [|split].
  - rewrite Hout; [by rewrite lookup_insert_eq|].
    intros Hin'. by apply (Hne _ Hin').
  - intros name Hname. rewrite (Hin _ Hname).
    rewrite lookup_insert_ne by (symmetry; by apply Hne). done.
  - intros name Hne' Hname. rewrite (Hout _ Hname).
    by rewrite lookup_insert_ne.
Qed.
End GetFromQueue.

Lemma sample_queue_row_numeric : times_numeric sample_queue_row.
Proof.
  intros name v Hname Hv Htr. unfold GetFromQueue.time_names in Hname.
  rewrite !elem_of_cons in Hname.
  destruct Hname as [->|[->|[->|[->|Hnil]]]];
    [..|by apply elem_of_nil in Hnil];
    vm_compute in Hv;
    first [ discriminate Hv
          | injection Hv as <-; first [ discriminate Htr | by eexists ] ].
Qed.

(** [GetFromQueue_handle_spec] at work: the sample row has an
    expiration of zero, two set times and one that is [None]. *)
Lemma GetFromQueue_handle_spec_witness :
  ∃ item' : pydict,
    GetFromQueue.handle sample_datetime_from_ms sample_queue_query "cid"
      (GetFromQueue.Input 1 "zpsm001") (server_with 1 sample_db no_pubsub)
      = (Ok item', set_txn None (server_with 1 sample_db no_pubsub))
    ∧ item' !! "expiration" = Some VNone
    ∧ (∀ name, name ∈ GetFromQueue.time_names →
         item' !! name
         = queue_time sample_datetime_from_ms (sample_queue_row !! name))
    ∧ ∀ name, name ≠ "expiration" → name ∉ GetFromQueue.time_names →
        item' !! name = sample_queue_row !! name.
Proof.
  apply (GetFromQueue_handle_spec sample_datetime_from_ms sample_queue_query
           "cid" (GetFromQueue.Input 1 "zpsm001")
           (server_with 1 sample_db no_pubsub) (VInt 0)).
  - reflexivity.
  - apply sample_queue_row_numeric.
Defined.

Example GetFromQueue_sample_times :
  match fst (GetFromQueue.handle sample_datetime_from_ms sample_queue_query "cid"
               (GetFromQueue.Input 1 "zpsm001")
               (server_with 1 sample_db no_pubsub)) with
  | Ok item' =>
      item' !! "recv_time" = Some (VStr "1970-01-01T00:00:00+1600000000000/1ms")
      ∧ item' !! "ext_pub_time" = Some VNone
      ∧ item' !! "last_delivery_time" = None
  | Raise _ => False
  end.
Proof. vm_compute. done. Qed.

(** ** The read services write nothing *)

(** X6: the GD get, [Has] and [GetFromQueue] are read-only: whatever
    the input and whether they return or raise, they leave the
    database, the trace and the in-RAM pub/sub state as they were and
    their session closed. *)
Theorem read_services_write_nothing (datetime_from_ms : Qc → string)
    (pubsub_queue_message : Z → string → Database → list pydict)
    (cid : string) (cluster_id : Z) (msg_id : string) (s : Server) :
  snd (GetFromTopicGD.handle datetime_from_ms cid
         (GetFromTopicGD.Input msg_id cluster_id) s) = set_txn None s
  ∧ snd (Has.handle (Has.Input cluster_id msg_id) s) = set_txn None s
  ∧ snd (GetFromQueue.handle datetime_from_ms pubsub_queue_message cid
           (GetFromQueue.Input cluster_id msg_id) s) = set_txn None s.
Proof.
  split; [|split].
  - unfold GetFromTopicGD.handle. py_run. by destruct (head _).
  - by rewrite Has_handle_eq.
  - unfold GetFromQueue.handle. py_run.
    destruct (head _) as [item|]; py_run; [|done].
    by destruct (getattr item "expiration"); py_run.
Qed.

(** ** [_Update.handle], for any subclass *)

Section update.
Context (datetime_from_ms : Qc → string).
Context (get_expiration : string → _Update.input → result (option Z)).
Context (get_priority : string → _Update.input → result Z).
Context (encode_utf8 : text → string).




End update.


(** ** [GetFromServerTopicNonGD], every outcome *)

Lemma bind_Raise {S A B} (m : M S A) (k : A → M S B) s e s' :
  m s = (Raise e, s') → bind m k s = (Raise e, s').
Proof. intros H. unfold bind. by rewrite H. Qed.

Lemma bind_lift_Raise {S A B} (e : exn) (k : A → M S B) s :
  bind (lift_result (Raise e)) k s = (Raise e, s).
Proof. done. Qed.

Section with_dict_errors.
Context (ref : nat) (s : Server).

Lemma getitem_at_None (d : pydict) key :
  d !! key = None →
  getitem ref key (with_dict ref d s) = (Raise (KeyError key), with_dict ref d s).
Proof.
  intros H. unfold getitem. rewrite (bind_Ok _ _ _ _ _ (deref_at ref s d)).
  by rewrite H.
Qed.

Lemma pop_at_None (d : pydict) key :
  d !! key = None →
  pop ref key (with_dict ref d s) = (Raise (KeyError key), with_dict ref d s).
Proof.
  intros H. unfold pop. rewrite (bind_Ok _ _ _ _ _ (deref_at ref s d)).
  by rewrite H.
Qed.

Lemma get_endpoint_by_id_at_any (d : pydict) v :
  get_endpoint_by_id v (with_dict ref d s)
  = (endpoint_of (endpoints (pubsub s)) v, with_dict ref d s).
Proof.
  destruct v; try done. unfold get_endpoint_by_id, bind, gets, endpoint_of.
  simpl. by destruct (endpoints (pubsub s) !! z).
Qed.
End with_dict_errors.

(** The handler computes [public_view] of the stored record, on a copy. *)
Lemma GetFromServerTopicNonGD_handle_run (datetime_from_ms : Qc → string)
    (cid : string) (i : GetFromServerTopicNonGD.input) (s : Server)
    (ref : nat) (d : pydict) :
  msg_id_to_msg (pubsub s) !! GetFromServerTopicNonGD.msg_id i = Some ref →
  heap (pubsub s) !! ref = Some d →
  ∃ copy : pydict,
    GetFromServerTopicNonGD.handle datetime_from_ms cid i s
    = (public_view datetime_from_ms (endpoints (pubsub s)) d,
       with_dict (fresh (dom (heap (pubsub s)))) copy s).
Proof.
  intros Hb Hd.
  destruct (GetFromServerTopicNonGD.handle datetime_from_ms cid i s)
    as [r s'] eqn:Hrun.
  unfold GetFromServerTopicNonGD.handle in Hrun.
  rewrite (bind_Ok _ _ s ref s) in Hrun
    by (unfold get_message_by_id, bind, gets, ret; by rewrite Hb).
  rewrite (bind_Ok _ _ _ _ _ (deepcopy_at _ _ _ Hd)) in Hrun.
  unfold public_view.
  destruct (d !! "pub_msg_id") as [mid|] eqn:H1.
  2:{ erewrite bind_Raise in Hrun by (by apply pop_at_None).
      injection Hrun as <- <-. eauto. }
  erewrite bind_Ok in Hrun by (by apply pop_at).
  erewrite bind_Ok in Hrun by apply setitem_at.
  erewrite bind_Ok in Hrun by apply pop_default_at.
  erewrite bind_Ok in Hrun by apply setitem_at.
  cbv zeta.
  destruct (_ !! "pub_time") as [pt|] eqn:H2.
  2:{ erewrite bind_Raise in Hrun by (by apply getitem_at_None).
      injection Hrun as <- <-. eauto. }
  erewrite bind_Ok in Hrun by (by apply getitem_at).
  destruct (mul_float pt (Qc_of_Z 1000)) as [ms|e] eqn:H3.
  2:{ rewrite bind_lift_Raise in Hrun. injection Hrun as <- <-. eauto. }
  rewrite bind_lift_Ok in Hrun.
  erewrite bind_Ok in Hrun by apply setitem_at.
  erewrite bind_Ok in Hrun by apply pop_default_at.
  destruct (truthy _) eqn:H4.
  - destruct (mul_float _ _) as [ms'|e] eqn:H5 in Hrun |- *.
    2:{ erewrite bind_Raise in Hrun by (by rewrite bind_lift_Raise).
        injection Hrun as <- <-. eauto. }
    erewrite bind_Ok in Hrun
      by (rewrite bind_lift_Ok; apply setitem_at).
    destruct (_ !! "published_by_id") as [eid|] eqn:H6.
    2:{ erewrite bind_Raise in Hrun by (by apply pop_at_None).
        injection Hrun as <- <-. eauto. }
    erewrite bind_Ok in Hrun by (by apply pop_at).
    erewrite bind_Ok in Hrun by apply setitem_at.
    erewrite bind_Ok in Hrun by (apply getitem_at, lookup_insert_eq).
    destruct (endpoint_of (endpoints (pubsub s)) eid) as [endpoint|e] eqn:H7.
    2:{ erewrite bind_Raise in Hrun
          by (rewrite get_endpoint_by_id_at_any, H7; reflexivity).
        injection Hrun as <- <-. eauto. }
    erewrite bind_Ok in Hrun
      by (rewrite get_endpoint_by_id_at_any, H7; reflexivity).
    erewrite bind_Ok in Hrun by apply setitem_at.
    rewrite deref_at in Hrun. injection Hrun as <- <-. eauto.
  - erewrite bind_Ok in Hrun by reflexivity.
    destruct (_ !! "published_by_id") as [eid|] eqn:H6.
    2:{ erewrite bind_Raise in Hrun by (by apply pop_at_None).
        injection Hrun as <- <-. eauto. }
    erewrite bind_Ok in Hrun by (by apply pop_at).
    erewrite bind_Ok in Hrun by apply setitem_at.
    erewrite bind_Ok in Hrun by (apply getitem_at, lookup_insert_eq).
    destruct (endpoint_of (endpoints (pubsub s)) eid) as [endpoint|e] eqn:H7.
    2:{ erewrite bind_Raise in Hrun
          by (rewrite get_endpoint_by_id_at_any, H7; reflexivity).
        injection Hrun as <- <-. eauto. }
    erewrite bind_Ok in Hrun
      by (rewrite get_endpoint_by_id_at_any, H7; reflexivity).
    erewrite bind_Ok in Hrun by apply setitem_at.
    rewrite deref_at in Hrun. injection Hrun as <- <-. eauto.
Qed.

(** X11: the answer of the non-GD get is a function of the stored
    record and of the endpoint directory alone.  Two server processes
    that hold the same record under an ID and know the same endpoints
    answer alike, result or exception; in particular a second get on
    the same process answers as the first did. *)
Theorem GetFromServerTopicNonGD_answer_of_record (datetime_from_ms : Qc → string)
    (cid : string) (i : GetFromServerTopicNonGD.input) (s1 s2 : Server)
    (ref1 ref2 : nat) (d : pydict) :
  msg_id_to_msg (pubsub s1) !! GetFromServerTopicNonGD.msg_id i = Some ref1 →
  heap (pubsub s1) !! ref1 = Some d →
  msg_id_to_msg (pubsub s2) !! GetFromServerTopicNonGD.msg_id i = Some ref2 →
  heap (pubsub s2) !! ref2 = Some d →
  endpoints (pubsub s1) = endpoints (pubsub s2) →
  fst (GetFromServerTopicNonGD.handle datetime_from_ms cid i s1)
    = fst (GetFromServerTopicNonGD.handle datetime_from_ms cid i s2)
  ∧ fst (GetFromServerTopicNonGD.handle datetime_from_ms cid i
           (snd (GetFromServerTopicNonGD.handle datetime_from_ms cid i s1)))
    = fst (GetFromServerTopicNonGD.handle datetime_from_ms cid i s1).
Proof.
  intros Hb1 Hd1 Hb2 Hd2 He.
  destruct (GetFromServerTopicNonGD_handle_run datetime_from_ms cid i s1 ref1 d
              Hb1 Hd1) as [copy1 Hrun1].
  destruct (GetFromServerTopicNonGD_handle_run datetime_from_ms cid i s2 ref2 d
              Hb2 Hd2) as [copy2 Hrun2].
  rewrite Hrun1, Hrun2. cbn [fst snd]. split; [by rewrite He|].
  set (new := fresh (dom (heap (pubsub s1)))).
  assert (new ≠ ref1) as Hne.
  { intros Heq. apply (is_fresh (dom (heap (pubsub s1)))). fold new.
    rewrite Heq. apply elem_of_dom. by exists d. }
  destruct (GetFromServerTopicNonGD_handle_run datetime_from_ms cid i
              (with_dict new copy1 s1) ref1 d) as [copy3 Hrun3].
  - done.
  - simpl. by rewrite lookup_insert_ne.
  - by rewrite Hrun3.
Qed.

(** [GetFromServerTopicNonGD_answer_of_record] at work: the sample
    message read on two processes, and twice on one. *)
Lemma GetFromServerTopicNonGD_answer_of_record_witness :
  fst (GetFromServerTopicNonGD.handle sample_datetime_from_ms "cid"
         (GetFromServerTopicNonGD.Input "zpsm900")
         (server_with 1 sample_db sample_pubsub))
    = fst (GetFromServerTopicNonGD.handle sample_datetime_from_ms "cid"
             (GetFromServerTopicNonGD.Input "zpsm900")
             (server_with 2 epoch_db sample_pubsub_two))
  ∧ fst (GetFromServerTopicNonGD.handle sample_datetime_from_ms "cid"
           (GetFromServerTopicNonGD.Input "zpsm900")
           (snd (GetFromServerTopicNonGD.handle sample_datetime_from_ms "cid"
                   (GetFromServerTopicNonGD.Input "zpsm900")
                   (server_with 1 sample_db sample_pubsub))))
    = fst (GetFromServerTopicNonGD.handle sample_datetime_from_ms "cid"
             (GetFromServerTopicNonGD.Input "zpsm900")
             (server_with 1 sample_db sample_pubsub)).
Proof.
  apply (GetFromServerTopicNonGD_answer_of_record sample_datetime_from_ms "cid"
           (GetFromServerTopicNonGD.Input "zpsm900")
           (server_with 1 sample_db sample_pubsub)
           (server_with 2 epoch_db sample_pubsub_two)
           0%nat 0%nat sample_non_gd); reflexivity.
Defined.

(** X12: what the non-GD get does with an incomplete record.  A stored
    message without [pub_msg_id] raises [KeyError] for that key; with
    it but without [pub_time], [KeyError] for [pub_time]; with a
    [pub_time] that is no number, [TypeError]; and with those in place
    and no expiration time but without [published_by_id], [KeyError]
    for that key.  A missing [pub_correl_id] is no error. *)
Theorem GetFromServerTopicNonGD_incomplete_record (datetime_from_ms : Qc → string)
    (cid : string) (i : GetFromServerTopicNonGD.input) (s : Server)
    (ref : nat) (d : pydict) :
  msg_id_to_msg (pubsub s) !! GetFromServerTopicNonGD.msg_id i = Some ref →
  heap (pubsub s) !! ref = Some d →
  let answer := fst (GetFromServerTopicNonGD.handle datetime_from_ms cid i s) in
  (d !! "pub_msg_id" = None → answer = Raise (KeyError "pub_msg_id"))
  ∧ (is_Some (d !! "pub_msg_id") → d !! "pub_time" = None →
     answer = Raise (KeyError "pub_time"))
  ∧ (is_Some (d !! "pub_msg_id") →
     ∀ pub_time, d !! "pub_time" = Some pub_time → as_number pub_time = None →
     answer = Raise (TypeError "unsupported operand type(s) for *"))
  ∧ (is_Some (d !! "pub_msg_id") →
     ∀ pub_time, d !! "pub_time" = Some pub_time →
     is_Some (as_number pub_time) →
     d !! "expiration_time" = None → d !! "published_by_id" = None →
     answer = Raise (KeyError "published_by_id")).
Proof.
  intros Hb Hd answer.
  destruct (GetFromServerTopicNonGD_handle_run datetime_from_ms cid i s ref d
              Hb Hd) as [copy Hrun].
  unfold answer. rewrite Hrun. cbn [fst]. unfold public_view.
  split; [by intros ->|].
  split; [|split].
  - intros [mid ->] Hpt. cbv zeta.
    by rewrite lookup_insert_ne, lookup_delete_ne, lookup_insert_ne,
      lookup_delete_ne, Hpt.
  - intros [mid ->] pt Hpt Hnum. cbv zeta.
    rewrite lookup_insert_ne, lookup_delete_ne, lookup_insert_ne,
      lookup_delete_ne, Hpt by done.
    unfold mul_float. by rewrite Hnum.
  - intros [mid ->] pt Hpt [q Hq] Het Hpub. cbv zeta.
    rewrite lookup_insert_ne, lookup_delete_ne, lookup_insert_ne,
      lookup_delete_ne, Hpt by done.
    unfold mul_float at 1. rewrite Hq.
    rewrite (lookup_insert_ne _ "pub_time" "expiration_time") by done.
    rewrite (lookup_insert_ne _ "correl_id" "expiration_time") by done.
    rewrite (lookup_delete_ne _ "pub_correl_id" "expiration_time") by done.
    rewrite (lookup_insert_ne _ "msg_id" "expiration_time") by done.
    rewrite (lookup_delete_ne _ "pub_msg_id" "expiration_time") by done.
    rewrite Het. cbn [default from_option id truthy].
    by rewrite lookup_delete_ne, lookup_insert_ne, lookup_insert_ne,
      lookup_delete_ne, lookup_insert_ne, lookup_delete_ne, Hpub.
Qed.

(** [GetFromServerTopicNonGD_incomplete_record] at work: message
    [zpsm901] of the sample backlog has no [pub_time]. *)
Lemma GetFromServerTopicNonGD_incomplete_record_witness :
  fst (GetFromServerTopicNonGD.handle sample_datetime_from_ms "cid"
         (GetFromServerTopicNonGD.Input "zpsm901")
         (server_with 1 sample_db sample_pubsub_two))
  = Raise (KeyError "pub_time").
Proof.
  destruct (GetFromServerTopicNonGD_incomplete_record sample_datetime_from_ms
              "cid" (GetFromServerTopicNonGD.Input "zpsm901")
              (server_with 1 sample_db sample_pubsub_two) 1%nat
              (<["pub_msg_id" := VStr "zpsm901"]> (delete "pub_time" sample_non_gd))
              eq_refl eq_refl) as (_ & H & _).
  apply H; [by eexists|reflexivity].
Defined.

(** ** The non-GD services together *)

Lemma GetFromServerTopicNonGD_handle_missing (datetime_from_ms : Qc → string)
    (cid : string) (i : GetFromServerTopicNonGD.input) (s : Server) :
  msg_id_to_msg (pubsub s) !! GetFromServerTopicNonGD.msg_id i = None →
  GetFromServerTopicNonGD.handle datetime_from_ms cid i s
  = (Raise (NotFound cid ("No such message `"
                          +:+ GetFromServerTopicNonGD.msg_id i +:+ "`")), s).
Proof.
  intros Hb. unfold GetFromServerTopicNonGD.handle.
  apply bind_Raise. unfold get_message_by_id, bind, gets. by rewrite Hb.
Qed.

Lemma GetFromServerTopicNonGD_handle_dangling (datetime_from_ms : Qc → string)
    (cid : string) (i : GetFromServerTopicNonGD.input) (s : Server) (ref : nat) :
  msg_id_to_msg (pubsub s) !! GetFromServerTopicNonGD.msg_id i = Some ref →
  heap (pubsub s) !! ref = None →
  GetFromServerTopicNonGD.handle datetime_from_ms cid i s
  = (Raise (SystemError "dangling reference"), s).
Proof.
  intros Hb Hd. unfold GetFromServerTopicNonGD.handle.
  rewrite (bind_Ok _ _ s ref s)
    by (unfold get_message_by_id, bind, gets, ret; by rewrite Hb).
  apply bind_Raise. unfold deepcopy. apply bind_Raise.
  unfold deref, bind, gets. by rewrite Hd.
Qed.

(** The answers of the handler in two states that agree on the record
    of the ID and on the endpoints. *)
Lemma GetFromServerTopicNonGD_handle_agree (datetime_from_ms : Qc → string)
    (cid : string) (i : GetFromServerTopicNonGD.input) (s1 s2 : Server) :
  msg_id_to_msg (pubsub s1) !! GetFromServerTopicNonGD.msg_id i
    = msg_id_to_msg (pubsub s2) !! GetFromServerTopicNonGD.msg_id i →
  heap (pubsub s1) = heap (pubsub s2) →
  endpoints (pubsub s1) = endpoints (pubsub s2) →
  fst (GetFromServerTopicNonGD.handle datetime_from_ms cid i s1)
  = fst (GetFromServerTopicNonGD.handle datetime_from_ms cid i s2).
Proof.
  intros Hb Hh He.
  destruct (msg_id_to_msg (pubsub s2) !! _) as [ref|] eqn:Hb2.
  - destruct (heap (pubsub s2) !! ref) as [d|] eqn:Hd2.
    + destruct (GetFromServerTopicNonGD_handle_run datetime_from_ms cid i s1 ref d)
        as [c1 ->]; [done|by rewrite Hh|].
      destruct (GetFromServerTopicNonGD_handle_run datetime_from_ms cid i s2 ref d)
        as [c2 ->]; [done..|].
      cbn [fst]. by rewrite He.
    + rewrite (GetFromServerTopicNonGD_handle_dangling _ _ _ s1 ref)
        by (done || by rewrite Hh).
      by rewrite (GetFromServerTopicNonGD_handle_dangling _ _ _ s2 ref).
  - by rewrite !GetFromServerTopicNonGD_handle_missing.
Qed.

(** All the handler changes is the heap of dicts. *)
Lemma GetFromServerTopicNonGD_handle_state (datetime_from_ms : Qc → string)
    (cid : string) (i : GetFromServerTopicNonGD.input) (s : Server) :
  ∃ f, snd (GetFromServerTopicNonGD.handle datetime_from_ms cid i s)
       = set_pubsub (set_heap f) s.
Proof.
  assert (s = set_pubsub (set_heap (λ h, h)) s) as Hid
    by (by destruct s as [? ? ? [] ? ?]).
  destruct (msg_id_to_msg (pubsub s) !! GetFromServerTopicNonGD.msg_id i)
    as [ref|] eqn:Hb.
  - destruct (heap (pubsub s) !! ref) as [d|] eqn:Hd.
    + destruct (GetFromServerTopicNonGD_handle_run datetime_from_ms cid i s ref d)
        as [c1 ->]; [done..|]. by eexists.
    + rewrite (GetFromServerTopicNonGD_handle_dangling _ _ _ s ref) by done.
      by eexists.
  - rewrite GetFromServerTopicNonGD_handle_missing by done. by eexists.
Qed.

(** X13: after the per-server non-GD delete of an ID, a get of that ID
    on the same process raises [NotFound] and changes nothing, whatever
    was stored before and whatever the backlog does about an ID that
    was not there; a get of any other ID answers as it did before the
    delete; the database of the process is not touched. *)
Theorem DeleteNonGDMessage_then_get (datetime_from_ms : Qc → string)
    (on_missing : option exn) (cid msg_id : string) (s : Server) :
  let s' := snd (DeleteNonGDMessage.handle on_missing
                   (DeleteNonGDMessage.Input msg_id) s) in
  GetFromServerTopicNonGD.handle datetime_from_ms cid
    (GetFromServerTopicNonGD.Input msg_id) s'
  = (Raise (NotFound cid ("No such message `" +:+ msg_id +:+ "`")), s')
  ∧ odb s' = odb s
  ∧ ∀ other : string, other ≠ msg_id →
      fst (GetFromServerTopicNonGD.handle datetime_from_ms cid
             (GetFromServerTopicNonGD.Input other) s')
      = fst (GetFromServerTopicNonGD.handle datetime_from_ms cid
               (GetFromServerTopicNonGD.Input other) s).
Proof.
  intros s'. unfold s'. rewrite DeleteNonGDMessage_handle_eq. cbn [snd].
  split; [|split; [done|]].
  - apply (GetFromServerTopicNonGD_handle_missing datetime_from_ms cid
             (GetFromServerTopicNonGD.Input msg_id)).
    cbn. apply lookup_delete_eq.
  - intros other Hne. apply GetFromServerTopicNonGD_handle_agree; [|done..].
    cbn. by apply lookup_delete_ne.
Qed.

(** On the sample backlog of two messages: after the delete of
    [zpsm901] that ID is not found and [zpsm900] is read as before. *)
Example DeleteNonGDMessage_then_get_sample :
  let s := server_with 1 sample_db sample_pubsub_two in
  let s' := snd (DeleteNonGDMessage.handle None
                   (DeleteNonGDMessage.Input "zpsm901") s) in
  fst (GetFromServerTopicNonGD.handle sample_datetime_from_ms "cid"
         (GetFromServerTopicNonGD.Input "zpsm901") s)
    = Raise (KeyError "pub_time")
  ∧ fst (GetFromServerTopicNonGD.handle sample_datetime_from_ms "cid"
           (GetFromServerTopicNonGD.Input "zpsm901") s')
    = Raise (NotFound "cid" "No such message `zpsm901`")
  ∧ (∃ d, fst (GetFromServerTopicNonGD.handle sample_datetime_from_ms "cid"
                 (GetFromServerTopicNonGD.Input "zpsm900") s') = Ok d
          ∧ d !! "msg_id" = Some (VStr "zpsm900")).
Proof.
  cbv zeta. split; [|split].
  - vm_compute. reflexivity.
  - vm_compute. reflexivity.
  - eexists. split; [vm_compute; reflexivity|]. vm_compute. reflexivity.
Qed.

(** X14: the admin-layer non-GD get answers exactly as the per-server
    get does in the process that [server_name] and [server_pid]
    address, result or exception.  In that process the backlog, the
    stored dicts and the database stay as they were; every other
    process of the cluster is untouched.  With no process behind the
    address the call fails with a communication error and the cluster
    is unchanged. *)
Theorem GetFromTopicNonGD_handle_dispatch (datetime_from_ms : Qc → string)
    (cid : string) (i : GetFromTopicNonGD.input) (c : Cluster) :
  let name := GetFromTopicNonGD.server_name i in
  let pid := GetFromTopicNonGD.server_pid i in
  let c' := snd (GetFromTopicNonGD.handle datetime_from_ms cid i c) in
  match target c name pid with
  | Some srv =>
      fst (GetFromTopicNonGD.handle datetime_from_ms cid i c)
        = fst (GetFromServerTopicNonGD.handle datetime_from_ms cid
                 (GetFromServerTopicNonGD.Input (GetFromTopicNonGD.msg_id i)) srv)
      ∧ (∃ srv', target c' name pid = Some srv'
                 ∧ frame (heap (pubsub srv)) (msg_id_to_msg (pubsub srv)) srv'
                 ∧ odb srv' = odb srv ∧ trace srv' = trace srv)
      ∧ ∀ name' pid', (name', pid') ≠ (name, pid) →
                      target c' name' pid' = target c name' pid'
  | None =>
      GetFromTopicNonGD.handle datetime_from_ms cid i c
      = (Raise (CommunicationFailure ("No such server `" +:+ name +:+ "`")), c)
  end.
Proof.
  intros name pid c'. unfold c', name, pid. clear c' name pid.
  unfold GetFromTopicNonGD.handle, target, invoke.
  set (get := GetFromServerTopicNonGD.handle datetime_from_ms cid
                (GetFromServerTopicNonGD.Input (GetFromTopicNonGD.msg_id i))).
  assert (∀ srv, frame (heap (pubsub srv)) (msg_id_to_msg (pubsub srv))
                   (snd (get srv))
                 ∧ odb (snd (get srv)) = odb srv
                 ∧ trace (snd (get srv)) = trace srv) as Hsrv.
  { intros srv. split; [apply GetFromServerTopicNonGD_frame|].
    destruct (GetFromServerTopicNonGD_handle_state datetime_from_ms cid
                (GetFromServerTopicNonGD.Input (GetFromTopicNonGD.msg_id i)) srv)
      as [f Hf]. unfold get. by rewrite Hf. }
  case_decide as Haddr.
  - specialize (Hsrv (this c)). destruct (get (this c)) as [r srv'].
    cbn [fst snd] in *. split; [done|]. split.
    + exists srv'. cbn [set_this this this_name this_pid remote].
      by rewrite decide_True.
    + intros name' pid' Hne. cbn [set_this this this_name this_pid remote].
      rewrite <-Haddr. by rewrite !decide_False.
  - destruct (remote c !! _) as [srv|] eqn:Hr; [|done].
    specialize (Hsrv srv). destruct (get srv) as [r srv'].
    cbn [fst snd] in *. split; [done|]. split.
    + exists srv'. cbn [set_remote this this_name this_pid remote].
      rewrite decide_False by done. by rewrite lookup_insert_eq.
    + intros name' pid' Hne. cbn [set_remote this this_name this_pid remote].
      case_decide; [done|]. by rewrite lookup_insert_ne.
Qed.

(** On the sample cluster the admin-layer get of [zpsm900] from
    [server2:200] returns the message, and from [server9:1] fails. *)
Example GetFromTopicNonGD_sample :
  (∃ d, fst (GetFromTopicNonGD.handle sample_datetime_from_ms "cid"
               (GetFromTopicNonGD.Input "zpsm900" "server2" 200) sample_cluster)
        = Ok d ∧ d !! "endpoint_name" = Some (VStr "zato.demo"))
  ∧ fst (GetFromTopicNonGD.handle sample_datetime_from_ms "cid"
           (GetFromTopicNonGD.Input "zpsm900" "server9" 1) sample_cluster)
    = Raise (CommunicationFailure "No such server `server9`").
Proof.
  split.
  - eexists. split; [vm_compute; reflexivity|]. vm_compute. reflexivity.
  - vm_compute. reflexivity.
Qed.

(** X15: the admin-layer non-GD delete adds no error of its own and
    hides none.  With no process behind the address it fails with a
    communication error and the cluster is unchanged.  Otherwise it
    answers as the per-server delete does in the addressed process,
    result or exception; the invoking server logs one line, naming the
    message and the address, exactly when the delete returned; the
    addressed process no longer holds the ID and keeps its stored
    dicts, endpoints, database and every other backlog entry; and every
    other process keeps its whole pub/sub state and database. *)
Theorem DeleteNonGD_handle_frame (on_missing : option exn)
    (i : DeleteNonGD.input) (c : Cluster) :
  let name := DeleteNonGD.server_name i in
  let pid := DeleteNonGD.server_pid i in
  let c' := snd (DeleteNonGD.handle on_missing i c) in
  match target c name pid with
  | None =>
      DeleteNonGD.handle on_missing i c
      = (Raise (CommunicationFailure ("No such server `" +:+ name +:+ "`")), c)
  | Some srv =>
      let answer :=
        fst (DeleteNonGDMessage.handle on_missing
               (DeleteNonGDMessage.Input (DeleteNonGD.msg_id i)) srv) in
      fst (DeleteNonGD.handle on_missing i c) = answer
      ∧ trace (this c')
        = trace (this c)
          ++ match answer with
             | Ok _ =>
                 [LogInfo ("Deleted non-GD message `" +:+ DeleteNonGD.msg_id i
                           +:+ "` from `" +:+ name +:+ ":" +:+ pretty pid +:+ "`")]
             | Raise _ => []
             end
      ∧ (∃ srv', target c' name pid = Some srv'
                 ∧ heap (pubsub srv') = heap (pubsub srv)
                 ∧ endpoints (pubsub srv') = endpoints (pubsub srv)
                 ∧ odb srv' = odb srv
                 ∧ msg_id_to_msg (pubsub srv') !! DeleteNonGD.msg_id i = None
                 ∧ ∀ other, other ≠ DeleteNonGD.msg_id i →
                     msg_id_to_msg (pubsub srv') !! other
                     = msg_id_to_msg (pubsub srv) !! other)
      ∧ ∀ name' pid', (name', pid') ≠ (name, pid) →
          match target c name' pid', target c' name' pid' with
          | Some old, Some new => pubsub new = pubsub old ∧ odb new = odb old
          | None, None => True
          | _, _ => False
          end
  end.
Proof.
  intros name pid c'. unfold c', name, pid. clear c' name pid.
  unfold DeleteNonGD.handle, target, bind, invoke, local.
  case_decide as Haddr.
  - rewrite !DeleteNonGDMessage_handle_eq. cbv zeta. cbn [fst snd].
    destruct (match msg_id_to_msg (pubsub (this c)) !! _ with
              | Some _ => _ | None => _ end) as [[]|e];
      cbn [logger_info modify fst snd set_this this this_name this_pid remote
           emit trace set_pubsub].
    all: split; [done|]; split; [by rewrite ?app_nil_r|]; split.
    all: try (eexists; rewrite decide_True by done; split; [reflexivity|];
              cbn; repeat split; try done;
              [apply lookup_delete_eq
              |intros other Hne; by apply lookup_delete_ne]).
    all: intros name' pid' Hne; rewrite <-Haddr; rewrite !decide_False by done;
      by destruct (remote c !! (name', pid')).
  - destruct (remote c !! _) as [srv|] eqn:Hr; [|done].
    rewrite !DeleteNonGDMessage_handle_eq. cbv zeta. cbn [fst snd].
    destruct (match msg_id_to_msg (pubsub srv) !! _ with
              | Some _ => _ | None => _ end) as [[]|e];
      cbn [logger_info modify fst snd set_this set_remote this this_name
           this_pid remote emit trace].
    all: split; [done|]; split; [by rewrite ?app_nil_r|]; split.
    all: try (eexists; rewrite decide_False by done; rewrite lookup_insert_eq;
              split; [reflexivity|];
              cbn; repeat split; try done;
              [apply lookup_delete_eq
              |intros other Hne; by apply lookup_delete_ne]).
    all: intros name' pid' Hne; (case_decide; [done|]);
      rewrite lookup_insert_ne by done;
      by destruct (remote c !! (name', pid')).
Qed.

(** On the sample cluster: the delete of the stored [zpsm900] on
    [server2:200] returns and is logged on the invoking server; under a
    policy that makes a missing ID an error the delete of an unknown ID
    raises that error and nothing is logged. *)
Example DeleteNonGD_sample :
  let strict := Some (NotFound "cid" "No such message `nope`") in
  let stored := DeleteNonGD.Input 1 "server2" 200 "zpsm900" in
  let unknown := DeleteNonGD.Input 1 "server2" 200 "nope" in
  fst (DeleteNonGD.handle strict stored sample_cluster) = Ok tt
  ∧ trace (this (snd (DeleteNonGD.handle strict stored sample_cluster)))
    = [LogInfo "Deleted non-GD message `zpsm900` from `server2:200`"]
  ∧ fst (DeleteNonGD.handle strict unknown sample_cluster)
    = Raise (NotFound "cid" "No such message `nope`")
  ∧ trace (this (snd (DeleteNonGD.handle strict unknown sample_cluster))) = [].
Proof. cbv zeta. repeat split; vm_compute; reflexivity. Qed.

(** ** [UpdateGD._save_item] *)

(** Writing a row by its primary key replaces that row and no other. *)
Lemma messages_add_row db (item old x : Message) :
  primary_key_unique db → old ∈ messages db →
  PubSubMessage.id item = PubSubMessage.id old →
  x ∈ messages (add_row item db) ↔ x = item ∨ (x ∈ messages db ∧ x ≠ old).
Proof.
  intros Hpk Hold Hid. simpl. rewrite list_elem_of_fmap. split.
  - intros (y & -> & Hy). case_decide as Hy_id; [by left|].
    right. split; [done|]. intros ->. by apply Hy_id.
  - intros [->|[Hx Hne]].
    + exists old. split; [|done]. by rewrite decide_True.
    + exists x. split; [|done]. rewrite decide_False; [done|].
      intros Hx_id. apply Hne. apply Hpk; [done..|congruence].
Qed.

(** After the row is written, its cluster and ID find it, and only it. *)
Lemma head_messages_by_id_add_row db (item old : Message) :
  primary_key_unique db → msg_id_unique db → old ∈ messages db →
  PubSubMessage.id item = PubSubMessage.id old →
  PubSubMessage.cluster_id item = PubSubMessage.cluster_id old →
  PubSubMessage.pub_msg_id item = PubSubMessage.pub_msg_id old →
  head (messages_by_id (PubSubMessage.cluster_id item)
          (PubSubMessage.pub_msg_id item) (add_row item db)) = Some item.
Proof.
  intros Hpk Hu Hold Hid Hc Hi.
  assert (∀ x, x ∈ messages_by_id (PubSubMessage.cluster_id item)
                     (PubSubMessage.pub_msg_id item) (add_row item db) ↔
               x = item) as Hall.
  { intros x. unfold messages_by_id. rewrite list_elem_of_filter.
    rewrite (messages_add_row db item old x) by done. split.
    - intros [[Hxc Hxi] [->|[Hx Hne]]]; [done|].
      destruct Hne. apply Hu; congruence.
    - intros ->. split; [done|]. by left. }
  destruct (messages_by_id _ _ _) as [|y l] eqn:Hl.
  - exfalso. apply (elem_of_nil item). by apply Hall.
  - simpl. f_equal. apply Hall. by left.
Qed.

(** X18: saving a GD item and reading it back.  On a database whose
    primary key and (cluster, message ID) index are unique,
    [UpdateGD._save_item] of an item that keeps the primary key, the
    cluster and the message ID of a stored row does not fail, commits
    once, replaces that row by the item and leaves every other message
    row, the topics and the subscriber queues as they were; a GD get of
    the item's ID afterwards answers with the item as saved, its times
    in ISO form. *)
Theorem UpdateGD_save_item_then_get (datetime_from_ms : Qc → string)
    (cid : string) (item old : Message) (s : Server) :
  primary_key_unique (session_view s) →
  msg_id_unique (session_view s) →
  old ∈ messages (session_view s) →
  PubSubMessage.id item = PubSubMessage.id old →
  PubSubMessage.cluster_id item = PubSubMessage.cluster_id old →
  PubSubMessage.pub_msg_id item = PubSubMessage.pub_msg_id old →
  let s' := snd (UpdateGD._save_item item s) in
  fst (UpdateGD._save_item item s) = Ok tt
  ∧ trace s' = trace s ++ [Committed]
  ∧ topics (odb s') = topics (session_view s)
  ∧ queue (odb s') = queue (session_view s)
  ∧ (∀ x, x ∈ messages (odb s') ↔
          x = item ∨ (x ∈ messages (session_view s) ∧ x ≠ old))
  ∧ fst (GetFromTopicGD.handle datetime_from_ms cid
           (GetFromTopicGD.Input (PubSubMessage.pub_msg_id item)
              (PubSubMessage.cluster_id item)) s')
    = Ok (PubSubMessage.with_times item
            (iso_of_seconds datetime_from_ms (PubSubMessage.pub_time item))
            (iso_if_set datetime_from_ms (PubSubMessage.ext_pub_time item))
            (iso_if_set datetime_from_ms (PubSubMessage.expiration_time item))).
Proof.
  intros Hpk Hu Hold Hid Hc Hi s'.
  assert (odb s' = add_row item (session_view s)) as Hodb by done.
  split; [done|]. split; [done|]. split; [by rewrite Hodb|].
  split; [by rewrite Hodb|]. split.
  - intros x. rewrite Hodb. by apply messages_add_row.
  - unfold GetFromTopicGD.handle. py_run. unfold pubsub_message.
    fold (odb s'). rewrite Hodb.
    rewrite (head_messages_by_id_add_row _ item old) by done.
    py_run. by rewrite !iso_if_set_truthy.
Qed.

(** [UpdateGD_save_item_then_get] at work: the first message of the
    sample database saved with the payload [new] and read back. *)
Lemma UpdateGD_save_item_then_get_witness :
  let s := set_txn (Some sample_db) (server_with 1 sample_db no_pubsub) in
  let s' := snd (UpdateGD._save_item sample_updated s) in
  messages (odb s')
    = [sample_updated; sample_message 2 "zpsm002" (Qc_of_Z 1600000060) None]
  ∧ ∃ view : MessageView,
      fst (GetFromTopicGD.handle sample_datetime_from_ms "cid"
             (GetFromTopicGD.Input "zpsm001" 1) s') = Ok view
      ∧ PubSubMessage.data view = "new".
Proof.
  cbv zeta. split; [reflexivity|]. eexists.
  destruct (UpdateGD_save_item_then_get sample_datetime_from_ms "cid"
              sample_updated
              (sample_message 1 "zpsm001" (Qc_of_Z 1600000000) None)
              (set_txn (Some sample_db) (server_with 1 sample_db no_pubsub)))
    as (_ & _ & _ & _ & _ & Hget).
  - apply sample_db_integrity.
  - apply sample_db_integrity.
  - apply list_elem_of_here.
  - reflexivity.
  - reflexivity.
  - reflexivity.
  - cbn [PubSubMessage.pub_msg_id PubSubMessage.cluster_id sample_updated] in Hget.
    split; [exact Hget|reflexivity].
Defined.
